(** * A shallow embedding of [telegram_music_recognizer_bot.py]

    The bot is one sequential handler, [handle_msg], with two helpers,
    [convert_to_wav] and [recognize_with_shazam].  Everything the handler
    talks to (the Telegram transport, the temporary-file machinery, the
    [ffmpeg] subprocess, the Shazam engine) is external; it is modelled by a
    record of oracles, [world], and every call that crosses the boundary is
    appended to a log of [event]s.  Python exceptions are an explicit
    outcome, and the state survives a raise, as in Python. *)

From Stdlib Require Import String Ascii List ZArith Bool Lia.
From Stdlib Require Import Floats.SpecFloat.
Import ListNotations.
Open Scope string_scope.
Set Warnings "-register-all".

(** ** Python values

    The recognition engine answers with decoded JSON: [None], booleans,
    numbers, strings, lists and string-keyed dicts.  A dict is an
    association list read from the left. *)

Inductive pyval : Type :=
| PNone
| PBool (b : bool)
| PInt (z : Z)
| PFloat (f : spec_float)
| PStr (s : string)
| PList (l : list pyval)
| PDict (d : list (string * pyval)).

(** The exceptions the handler can meet.  All of them derive from Python's
    [Exception], the class every [except] clause of the source names. *)
Inductive pyexn : Type :=
| AttributeError
| TypeError
| IndexError
| KeyError
| FileNotFoundError
| IsADirectoryError
| FileExistsError
| ExternalError (what : string).

Inductive outcome (A : Type) : Type :=
| Ok (a : A)
| Raise (e : pyexn).
Arguments Ok {A} a.
Arguments Raise {A} e.

Definition obind {A B} (o : outcome A) (k : A -> outcome B) : outcome B :=
  match o with
  | Ok a => k a
  | Raise e => Raise e
  end.

(** [bool(v)] *)
Definition truthy (v : pyval) : bool :=
  match v with
  | PNone => false
  | PBool b => b
  | PInt z => negb (z =? 0)%Z
  | PFloat (S754_zero _) => false
  | PFloat _ => true
  | PStr s => negb (s =? "")
  | PList l => match l with [] => false | _ :: _ => true end
  | PDict d => match d with [] => false | _ :: _ => true end
  end.

(** [isinstance(v, dict)] and [isinstance(v, list)] *)
Definition is_dict (v : pyval) : bool :=
  match v with PDict _ => true | _ => false end.

Definition is_list (v : pyval) : bool :=
  match v with PList _ => true | _ => false end.

Fixpoint dict_lookup (key : string) (d : list (string * pyval)) : option pyval :=
  match d with
  | [] => None
  | (k, v) :: rest => if k =? key then Some v else dict_lookup key rest
  end.

(** [v.get(key, default)]: only a dict has the method. *)
Definition py_get (v : pyval) (key : string) (default : pyval) : outcome pyval :=
  match v with
  | PDict d =>
      match dict_lookup key d with
      | Some x => Ok x
      | None => Ok default
      end
  | _ => Raise AttributeError
  end.

(** [a or b] *)
Definition py_or (a b : pyval) : pyval := if truthy a then a else b.

(** [v == s] for a string literal [s] *)
Definition py_eq_str (v : pyval) (s : string) : bool :=
  match v with
  | PStr t => t =? s
  | _ => false
  end.

Fixpoint chars (s : string) : list pyval :=
  match s with
  | EmptyString => []
  | String c rest => PStr (String c EmptyString) :: chars rest
  end.

(** The items a [for] loop draws from [v].  A dict yields its keys and a
    string its characters (here: its bytes; either way strings). *)
Definition py_iter (v : pyval) : outcome (list pyval) :=
  match v with
  | PList l => Ok l
  | PDict d => Ok (map (fun kv => PStr (fst kv)) d)
  | PStr s => Ok (chars s)
  | _ => Raise TypeError
  end.

(** [v[0]].  The keys of a decoded JSON object are strings, so [0] is never
    one of them. *)
Definition py_item0 (v : pyval) : outcome pyval :=
  match v with
  | PList [] => Raise IndexError
  | PList (x :: _) => Ok x
  | PStr EmptyString => Raise IndexError
  | PStr (String c _) => Ok (PStr (String c EmptyString))
  | PDict _ => Raise KeyError
  | _ => Raise TypeError
  end.

(** ** Messages *)

(** A Telegram attachment.  [file_name] is read for audio and documents
    only. *)
Record media : Type := {
  file_id : string;
  file_unique_id : string;
  file_name : option string
}.

Record message : Type := {
  voice : option media;
  audio : option media;
  video : option media;
  document : option media;
  video_note : option media
}.

Record update : Type := {
  upd_message : option message
}.

Inductive kind : Type := Voice | Audio | Video | Document | VideoNote.

(** [name or fallback] on an optional string *)
Definition str_or (name : option string) (fallback : string) : string :=
  match name with
  | Some s => if s =? "" then fallback else s
  | None => fallback
  end.

(** ** The file system, the log and the world *)

Definition bytes : Type := list Byte.byte.

Record filesystem : Type := {
  fs_dirs : list string;
  fs_files : list (string * bytes)
}.

Fixpoint read_path (p : string) (files : list (string * bytes)) : option bytes :=
  match files with
  | [] => None
  | (q, b) :: rest => if q =? p then Some b else read_path p rest
  end.

Definition write_path (p : string) (b : bytes) (files : list (string * bytes))
  : list (string * bytes) :=
  (p, b) :: filter (fun qb => negb (fst qb =? p)) files.

Definition write_file (p : string) (b : bytes) (fs : filesystem) : filesystem :=
  {| fs_dirs := fs_dirs fs; fs_files := write_path p b (fs_files fs) |}.

Definition write_files (ws : list (string * bytes)) (fs : filesystem) : filesystem :=
  fold_left (fun acc w => write_file (fst w) (snd w) acc) ws fs.

(** A regular file is at [p]. *)
Definition file_exists (p : string) (fs : filesystem) : bool :=
  match read_path p (fs_files fs) with
  | Some _ => true
  | None => false
  end.

(** Where a path leads.  The segments of a path are walked from the left:
    an empty segment and ["."] stay where they are, [".."] goes one
    directory up (nowhere from the root), a name goes down.  The directories
    passed are kept innermost first. *)
Definition enter (absolute : bool) (seg : string) (stack : list string)
  : list string :=
  if (seg =? "") || (seg =? ".") then stack
  else if seg =? ".." then
    match stack with
    | [] => if absolute then [] else [".."]
    | top :: rest => if top =? ".." then ".." :: stack else rest
    end
  else seg :: stack.

Fixpoint walk (absolute : bool) (p : string) (stack : list string)
  (seg : string) : list string :=
  match p with
  | EmptyString => enter absolute seg stack
  | String c rest =>
      if Ascii.eqb c "/" then walk absolute rest (enter absolute seg stack) ""
      else walk absolute rest stack (seg ++ String c EmptyString)
  end.

Definition resolved (p : string) : list string :=
  walk (prefix "/" p) p [] "".

Fixpoint same_segments (a b : list string) : bool :=
  match a, b with
  | [], [] => true
  | x :: a', y :: b' => (x =? y) && same_segments a' b'
  | _, _ => false
  end.

(** [inner] is what is left of [outer] after some steps up. *)
Fixpoint is_tail (inner outer : list string) : bool :=
  same_segments inner outer ||
  match outer with
  | [] => false
  | _ :: rest => is_tail inner rest
  end.

(** [p] leads to the directory [d] or to a place below it. *)
Definition under (d p : string) : bool :=
  Bool.eqb (prefix "/" d) (prefix "/" p) && is_tail (resolved d) (resolved p).

Definition mkdir (d : string) (fs : filesystem) : filesystem :=
  {| fs_dirs := d :: fs_dirs fs; fs_files := fs_files fs |}.

Definition rmtree (d : string) (fs : filesystem) : filesystem :=
  {| fs_dirs := filter (fun q => negb (under d q)) (fs_dirs fs);
     fs_files := filter (fun qb => negb (under d (fst qb))) (fs_files fs) |}.

Definition dir_exists (d : string) (fs : filesystem) : bool :=
  existsb (fun q => q =? d) (fs_dirs fs).

(** [Path.exists()]: a regular file or a directory is at [p]. *)
Definition exists_at (p : string) (fs : filesystem) : bool :=
  file_exists p fs || dir_exists p fs.

(** Nothing of [fs] is the directory [d] or lies below it. *)
Definition fresh_in (d : string) (fs : filesystem) : bool :=
  forallb (fun q => negb (under d q)) (fs_dirs fs) &&
  forallb (fun qb => negb (under d (fst qb))) (fs_files fs).

(** [Path(d) / name]: an absolute right operand replaces the left one, and
    so does any right operand when the left one is empty.  The folding of
    ["."] components and doubled slashes that [pathlib] does on top of that
    is left to [resolved]. *)
Definition path_join (d name : string) : string :=
  if prefix "/" name then name
  else if d =? "" then name
  else d ++ "/" ++ name.

Inductive event : Type :=
| EvGetFile (k : kind) (id : string)
| EvReplyText (text : string)
| EvChatAction (action : string)
| EvMkdtemp (dir : string)
| EvCleanup (dir : string)
| EvDownload (handle path : string)
| EvSpawn (argv : list string)
| EvRead (path : string)
| EvRecognize (audio : bytes)
| EvPrint (what : string) (e : pyexn).

Record state : Type := {
  st_fs : filesystem;
  st_log : list event
}.

(** What the outside does when called.  [inl e] is a raised exception. *)
Record world : Type := {
  w_get_file : kind -> media -> pyexn + string;
  w_send : event -> option pyexn;
  w_tmpname : filesystem -> pyexn + string;
  w_download : string -> string -> pyexn + bytes;
  w_exec : list string -> filesystem -> pyexn + (Z * list (string * bytes));
  w_shazam : bytes -> pyexn + pyval
}.

(** [tempfile.mkdtemp()]: the directory it makes is a new one.  The world
    names the directory; a name that is taken, or has something below it,
    is refused as [os.mkdir] refuses it. *)
Definition w_mkdtemp (w : world) (fs : filesystem) : pyexn + string :=
  match w_tmpname w fs with
  | inl e => inl e
  | inr d => if fresh_in d fs then inr d else inl FileExistsError
  end.

(** ** The monad of the handler: state, and exceptions that keep it *)

Definition M (A : Type) : Type := state -> outcome A * state.

Definition ret {A} (a : A) : M A := fun st => (Ok a, st).

Definition raise {A} (e : pyexn) : M A := fun st => (Raise e, st).

Definition bind {A B} (c : M A) (k : A -> M B) : M B :=
  fun st =>
    match c st with
    | (Ok a, st') => k a st'
    | (Raise e, st') => (Raise e, st')
    end.

Notation "x <- c ;; k" := (bind c (fun x => k))
  (at level 61, c at next level, right associativity).
Notation "c ;;; k" := (bind c (fun _ => k))
  (at level 61, right associativity).

(** [try: c  except Exception as e: ...], with the handler left to the
    caller: the exception becomes a value. *)
Definition try_ {A} (c : M A) : M (pyexn + A) :=
  fun st =>
    match c st with
    | (Ok a, st') => (Ok (inr a), st')
    | (Raise e, st') => (Ok (inl e), st')
    end.

Definition lift {A} (o : outcome A) : M A := fun st => (o, st).

Definition emit (ev : event) : M unit :=
  fun st => (Ok tt, {| st_fs := st_fs st; st_log := st_log st ++ [ev] |}).

Definition get_fs : M filesystem := fun st => (Ok (st_fs st), st).

Definition set_fs (fs : filesystem) : M unit :=
  fun st => (Ok tt, {| st_fs := fs; st_log := st_log st |}).

Definition of_sum {A} (r : pyexn + A) : M A :=
  match r with
  | inl e => raise e
  | inr a => ret a
  end.

(** ** The texts the bot sends *)

Definition nl : string := String (ascii_of_nat 10) EmptyString.

Definition usage_prompt : string :=
  "ارسل ملف صوتي/فيديو او رسالة صوتية حتى اعرف اسم الاغنية.".

Definition download_error : string :=
  "خطأ بتنزيل الملف. حاول مرة ثانية.".

Definition convert_error : string :=
  "ما اكدر احول الملف لصيغة يدعمها محرك التعرف. تأكد الملف صحيح أو اجرب صيغة ثانية.".

Definition no_match : string :=
  "ماكدر اتعرف على الاغنية. جرب صوت أو مقطع أطول أو استعمل خدمة ثانية (ACRCloud / Audd).".

Definition placeholder : string := "---".

Definition link_label : string := nl ++ "رابط يوتيوب ممكن: ".

Definition title_label : string := "ممكن هذي الأغنية:" ++ nl ++ "- العنوان: ".

Definition artist_label : string := nl ++ "- الفنان: ".

(** A rendering of values that is exact on strings, [None] and booleans;
    it serves as a concrete instance of the formatting function the handler
    is parameterised by. *)
Definition show_scalar (v : pyval) : string :=
  match v with
  | PNone => "None"
  | PBool true => "True"
  | PBool false => "False"
  | PStr s => s
  | _ => "<object>"
  end.

(** ** The program *)

Section Bot.

(** [format(v, "")], which an f-string applies to each replacement field.
    It is a builtin of the language, not code of the bot. *)
Variable py_format : pyval -> string.

(** The behaviour of everything outside the process. *)
Variable w : world.

(** *** Calls across the boundary *)

(** [await msg.<kind>.get_file()] *)
Definition get_file (k : kind) (m : media) : M string :=
  emit (EvGetFile k (file_id m)) ;;;
  of_sum (w_get_file w k m).

Definition send (ev : event) : M unit :=
  emit ev ;;;
  match w_send w ev with
  | Some e => raise e
  | None => ret tt
  end.

(** [await msg.reply_text(text)] *)
Definition reply_text (text : string) : M unit := send (EvReplyText text).

(** [await msg.reply_chat_action(action)] *)
Definition reply_chat_action (action : string) : M unit :=
  send (EvChatAction action).

(** [print(what, e)] *)
Definition print (what : string) (e : pyexn) : M unit := emit (EvPrint what e).

(** [await file_obj.download_to_drive(custom_path=path)] *)
Definition download_to_drive (file_obj path : string) : M unit :=
  emit (EvDownload file_obj path) ;;;
  data <- of_sum (w_download w file_obj path) ;;
  fs <- get_fs ;;
  set_fs (write_file path data fs).

(** [proc = await asyncio.create_subprocess_exec( *cmd, ...)] followed by
    [await proc.communicate()]: the process runs to its end and leaves its
    files behind.  Its exit status stays in [proc.returncode], which the
    caller never reads. *)
Definition run_subprocess (cmd : list string) : M Z :=
  emit (EvSpawn cmd) ;;;
  fs <- get_fs ;;
  r <- of_sum (w_exec w cmd fs) ;;
  set_fs (write_files (snd r) fs) ;;;
  ret (fst r).

(** [path.exists()] *)
Definition path_exists (path : string) : M bool :=
  fs <- get_fs ;;
  ret (exists_at path fs).

(** [with open(path, "rb") as f: f.read()]: a regular file is read; a
    directory and a path that leads nowhere make [open] raise. *)
Definition read_file (path : string) : M bytes :=
  emit (EvRead path) ;;;
  fs <- get_fs ;;
  match read_path path (fs_files fs) with
  | Some b => ret b
  | None =>
      if dir_exists path fs then raise IsADirectoryError
      else raise FileNotFoundError
  end.

(** [await shazam.recognize_song(audio_bytes)] *)
Definition recognize_song (audio_bytes : bytes) : M pyval :=
  emit (EvRecognize audio_bytes) ;;;
  of_sum (w_shazam w audio_bytes).

(** [with tempfile.TemporaryDirectory() as tmpdir: body]: the directory is
    made on entry and removed with all it holds when the block is left,
    whichever way it is left. *)
Definition with_TemporaryDirectory {A} (body : string -> M A) : M A :=
  fun st =>
    match w_mkdtemp w (st_fs st) with
    | inl e => (Raise e, st)
    | inr tmpdir =>
        let st1 := {| st_fs := mkdir tmpdir (st_fs st);
                      st_log := st_log st ++ [EvMkdtemp tmpdir] |} in
        let (r, st2) := body tmpdir st1 in
        (r, {| st_fs := rmtree tmpdir (st_fs st2);
               st_log := st_log st2 ++ [EvCleanup tmpdir] |})
    end.

(** *** [convert_to_wav] (line 24) *)

Definition ffmpeg_cmd (input_path output_path : string) : list string :=
  ["ffmpeg"; "-y"; "-i"; input_path; "-ar"; "44100"; "-ac"; "2"; "-vn";
   output_path].

Definition convert_to_wav (input_path output_path : string) : M bool :=
  let cmd := ffmpeg_cmd input_path output_path in
  r <- try_ (run_subprocess cmd ;;; path_exists output_path) ;;
  match r with
  | inr found => ret found
  | inl e => print "ffmpeg conversion failed:" e ;;; ret false
  end.

(** *** [recognize_with_shazam] (line 26)

    The file is read before the [try] is entered, so a failing read is not
    caught here.  [Shazam()] only builds the client object. *)

Definition recognize_with_shazam (wav_path : string) : M pyval :=
  audio_bytes <- read_file wav_path ;;
  r <- try_ (recognize_song audio_bytes) ;;
  match r with
  | inr out => ret out
  | inl e => print "shazam recognition error:" e ;;; ret (PDict [])
  end.

(** *** [handle_msg] (lines 28-94) *)

(** The loop of lines 84-87 over the items of [providers], entered with
    [more]; its value is [more] when the loop is left. *)
Fixpoint scan_providers (ps : list pyval) (more : string) : outcome string :=
  match ps with
  | [] => Ok more
  | p :: rest =>
      obind (py_get p "type" PNone) (fun ty =>
      if py_eq_str ty "youtube" then
        obind (py_get p "actions" (PList [PDict []])) (fun actions =>
        obind (py_item0 actions) (fun first =>
        obind (py_get first "uri" (PStr "")) (fun uri =>
        Ok (link_label ++ py_format uri))))
      else scan_providers rest more)
  end.

(** The loop of lines 80-89 over [sections]. *)
Fixpoint scan_sections (sections : list pyval) (more : string) : outcome string :=
  match sections with
  | [] => Ok more
  | sec :: rest =>
      obind (py_get sec "hub" PNone) (fun hub =>
      obind (if truthy hub && is_dict hub then
               obind (py_get hub "providers" PNone) (fun found =>
               obind (py_iter (py_or found (PList []))) (fun providers =>
               scan_providers providers more))
             else Ok more) (fun more' =>
      if negb (more' =? "") then Ok more' else scan_sections rest more'))
  end.

(** Lines 78-89: the suggested link, [""] when none is found. *)
Definition find_link (sections : pyval) : outcome string :=
  if is_list sections && truthy sections then
    obind (py_iter sections) (fun items => scan_sections items "")
  else Ok "".

(** Lines 75-91: the reply for a track that passed [if track:]. *)
Definition track_reply (track : pyval) : outcome string :=
  obind (py_get track "title" PNone) (fun t =>
  let title := py_or t (PStr placeholder) in
  obind (py_get track "subtitle" PNone) (fun s =>
  let subtitle := py_or s (PStr placeholder) in
  obind (py_get track "sections" PNone) (fun sections =>
  obind (find_link sections) (fun more =>
  Ok (title_label ++ py_format title ++ artist_label ++ py_format subtitle
        ++ more))))).

(** Lines 72-94: from the engine's answer to the reply. *)
Definition respond (result : pyval) : M unit :=
  track <- lift (if is_dict result then py_get result "track" PNone
                 else Ok PNone) ;;
  if truthy track then
    reply <- lift (track_reply track) ;;
    reply_text reply
  else
    reply_text no_match.

(** Lines 55-94: the body of the [with] block. *)
Definition process (file_obj file_name_hint tmpdir : string) : M unit :=
  let in_path := path_join tmpdir file_name_hint in
  let out_wav := path_join tmpdir "converted.wav" in
  r <- try_ (download_to_drive file_obj in_path) ;;
  match r with
  | inl e =>
      reply_text download_error ;;;
      print "download error:" e ;;;
      ret tt
  | inr _ =>
      ok <- convert_to_wav in_path out_wav ;;
      if negb ok then
        reply_text convert_error ;;;
        ret tt
      else
        result <- recognize_with_shazam out_wav ;;
        respond result
  end.

(** Lines 33-50: the attachment that is picked, with its file handle and
    the name its bytes get; [None] after the usage prompt. *)
Definition resolve (msg : message) : M (option (string * string)) :=
  match voice msg with
  | Some v =>
      file_obj <- get_file Voice v ;;
      ret (Some (file_obj, "voice_" ++ file_unique_id v ++ ".ogg"))
  | None =>
  match audio msg with
  | Some a =>
      file_obj <- get_file Audio a ;;
      ret (Some (file_obj,
                 str_or (file_name a) ("audio_" ++ file_unique_id a)))
  | None =>
  match video msg with
  | Some v =>
      file_obj <- get_file Video v ;;
      ret (Some (file_obj, "video_" ++ file_unique_id v ++ ".mp4"))
  | None =>
  match document msg with
  | Some d =>
      file_obj <- get_file Document d ;;
      ret (Some (file_obj,
                 str_or (file_name d) ("doc_" ++ file_unique_id d)))
  | None =>
  match video_note msg with
  | Some v =>
      file_obj <- get_file VideoNote v ;;
      ret (Some (file_obj, "vnote_" ++ file_unique_id v ++ ".mp4"))
  | None =>
      reply_text usage_prompt ;;;
      ret None
  end end end end end.

Definition handle_msg (upd : update) : M unit :=
  match upd_message upd with
  | None => ret tt
  | Some msg =>
      picked <- resolve msg ;;
      match picked with
      | None => ret tt
      | Some (file_obj, file_name_hint) =>
          reply_chat_action "typing" ;;;
          with_TemporaryDirectory (process file_obj file_name_hint)
      end
  end.

(** One request: the handler run from an empty log. *)
Definition run_request (upd : update) (fs : filesystem) : outcome unit * state :=
  handle_msg upd {| st_fs := fs; st_log := [] |}.

Definition events (upd : update) (fs : filesystem) : list event :=
  st_log (snd (run_request upd fs)).

Definition final_fs (upd : update) (fs : filesystem) : filesystem :=
  st_fs (snd (run_request upd fs)).

End Bot.

(** ** The contract in the words of the specification *)

(** The order in which the attachment fields are inspected. *)
Definition priority : list kind := [Voice; Audio; Video; Document; VideoNote].

Definition attachment (msg : message) (k : kind) : option media :=
  match k with
  | Voice => voice msg
  | Audio => audio msg
  | Video => video msg
  | Document => document msg
  | VideoNote => video_note msg
  end.

(** The first populated field in a given order. *)
Fixpoint first_populated_in (ks : list kind) (msg : message) : option (kind * media) :=
  match ks with
  | [] => None
  | k :: rest =>
      match attachment msg k with
      | Some m => Some (k, m)
      | None => first_populated_in rest msg
      end
  end.

Definition first_populated (msg : message) : option (kind * media) :=
  first_populated_in priority msg.

(** The synthesized or provided file name of an attachment. *)
Definition hint_of (k : kind) (m : media) : string :=
  match k with
  | Voice => "voice_" ++ file_unique_id m ++ ".ogg"
  | Audio => str_or (file_name m) ("audio_" ++ file_unique_id m)
  | Video => "video_" ++ file_unique_id m ++ ".mp4"
  | Document => str_or (file_name m) ("doc_" ++ file_unique_id m)
  | VideoNote => "vnote_" ++ file_unique_id m ++ ".mp4"
  end.

(** ** Reading the log *)

Definition replies (log : list event) : list string :=
  flat_map (fun ev => match ev with EvReplyText t => [t] | _ => [] end) log.

Definition fetched (log : list event) : list (kind * string) :=
  flat_map (fun ev => match ev with EvGetFile k id => [(k, id)] | _ => [] end) log.

Definition is_stage_event (ev : event) : bool :=
  match ev with
  | EvDownload _ _ | EvSpawn _ | EvRead _ | EvRecognize _ => true
  | _ => false
  end.

(** The download, transcode and recognition calls of a log. *)
Definition stage_calls (log : list event) : list event :=
  filter is_stage_event log.

(** [needle] occurs in [hay]. *)
Fixpoint occurs (needle hay : string) : bool :=
  prefix needle hay ||
  match hay with
  | EmptyString => false
  | String _ rest => occurs needle rest
  end.

(** ** How far a request gets

    The state machine of one request, up to the recognition stage: each
    constructor is one stage left without an error, and the state is the one
    in which the next stage starts. *)

Inductive stage : Type :=
| Resolved (file_obj file_name_hint : string)
| InTempDir (file_obj file_name_hint tmpdir : string)
| Downloaded (tmpdir in_path out_wav : string)
| Transcoded (tmpdir out_wav : string).

Inductive reached (w : world) (upd : update) (fs : filesystem)
  : stage -> state -> Prop :=
| reach_resolved msg k m file_obj :
    upd_message upd = Some msg ->
    first_populated msg = Some (k, m) ->
    w_get_file w k m = inr file_obj ->
    reached w upd fs (Resolved file_obj (hint_of k m))
      {| st_fs := fs; st_log := [EvGetFile k (file_id m)] |}
| reach_tempdir file_obj hint st tmpdir :
    reached w upd fs (Resolved file_obj hint) st ->
    w_send w (EvChatAction "typing") = None ->
    w_mkdtemp w (st_fs st) = inr tmpdir ->
    reached w upd fs (InTempDir file_obj hint tmpdir)
      {| st_fs := mkdir tmpdir (st_fs st);
         st_log := st_log st ++ [EvChatAction "typing"; EvMkdtemp tmpdir] |}
| reach_downloaded file_obj hint tmpdir st st' :
    reached w upd fs (InTempDir file_obj hint tmpdir) st ->
    download_to_drive w file_obj (path_join tmpdir hint) st = (Ok tt, st') ->
    reached w upd fs
      (Downloaded tmpdir (path_join tmpdir hint)
         (path_join tmpdir "converted.wav")) st'
| reach_transcoded tmpdir in_path out_wav st st' :
    reached w upd fs (Downloaded tmpdir in_path out_wav) st ->
    convert_to_wav w in_path out_wav st = (Ok true, st') ->
    reached w upd fs (Transcoded tmpdir out_wav) st'.

(** Leaving the [with] block of [tmpdir] with result [r]. *)
Definition close {A} (tmpdir : string) (r : outcome A * state) : outcome A * state :=
  (fst r, {| st_fs := rmtree tmpdir (st_fs (snd r));
             st_log := st_log (snd r) ++ [EvCleanup tmpdir] |}).

(** What is left of the handler at each stage. *)
Definition remainder (py_format : pyval -> string) (w : world) (s : stage)
  : M unit :=
  match s with
  | Resolved file_obj hint =>
      reply_chat_action w "typing" ;;;
      with_TemporaryDirectory w (process py_format w file_obj hint)
  | InTempDir file_obj hint tmpdir =>
      fun st => close tmpdir (process py_format w file_obj hint tmpdir st)
  | Downloaded tmpdir in_path out_wav =>
      fun st =>
        close tmpdir
          ((ok <- convert_to_wav w in_path out_wav ;;
            if negb ok then reply_text w convert_error ;;; ret tt
            else result <- recognize_with_shazam w out_wav ;;
                 respond py_format w result) st)
  | Transcoded tmpdir out_wav =>
      fun st =>
        close tmpdir
          ((result <- recognize_with_shazam w out_wav ;;
            respond py_format w result) st)
  end.

(** The engine is asked about [audio] and answers [r]. *)
Definition recognized (w : world) (upd : update) (fs : filesystem)
  (tmpdir : string) (st : state) (audio : bytes) (r : pyexn + pyval) : Prop :=
  exists out_wav,
    reached w upd fs (Transcoded tmpdir out_wav) st /\
    read_path out_wav (fs_files (st_fs st)) = Some audio /\
    w_shazam w audio = r.

(** [d.get(key)] on the entries of a dict *)
Definition dict_get (d : list (string * pyval)) (key : string) : pyval :=
  match dict_lookup key d with
  | Some x => x
  | None => PNone
  end.

(** The value [track] of line 72. *)
Definition track_of (result : pyval) : pyval :=
  match result with
  | PDict d => dict_get d "track"
  | _ => PNone
  end.

(** What [recognize_with_shazam] hands back for the engine's behaviour. *)
Definition answer_of (r : pyexn + pyval) : pyval :=
  match r with
  | inl _ => PDict []
  | inr v => v
  end.

(** The three ways of coming back without a track: the engine raised, or
    its answer is a dict, the empty one included, whose ["track"] is absent
    or null. *)
Definition no_result (r : pyexn + pyval) : bool :=
  match r with
  | inl _ => true
  | inr (PDict resp) =>
      match dict_lookup "track" resp with
      | None | Some PNone => true
      | Some _ => false
      end
  | inr _ => false
  end.

(** The outcome of sending [text] as a reply. *)
Definition sent (w : world) (text : string) : outcome unit :=
  match w_send w (EvReplyText text) with
  | Some e => Raise e
  | None => Ok tt
  end.

(** The world [w] with every subprocess ending in [status]. *)
Definition with_status (status : Z) (w : world) : world :=
  {| w_get_file := w_get_file w;
     w_send := w_send w;
     w_tmpname := w_tmpname w;
     w_download := w_download w;
     w_exec := fun cmd fs =>
       match w_exec w cmd fs with
       | inl e => inl e
       | inr r => inr (status, snd r)
       end;
     w_shazam := w_shazam w |}.

Definition is_fetch (ev : event) : bool :=
  match ev with
  | EvGetFile _ _ => true
  | _ => false
  end.

(** [c] only appends to the log, and only events that pass [P]. *)
Definition logs_only {A} (P : event -> bool) (c : M A) : Prop :=
  forall st, exists evs,
    st_log (snd (c st)) = (st_log st ++ evs)%list /\ forallb P evs = true.

(** *** Well-formed sections *)

(** A provider record of another type than youtube. *)
Definition plain_provider (p : pyval) : bool :=
  match p with
  | PDict d => negb (py_eq_str (dict_get d "type") "youtube")
  | _ => false
  end.

(** A section record without a qualifying hub: no hub record, or one whose
    providers are absent, empty, or all of another type. *)
Definition no_link_section (sec : pyval) : bool :=
  match sec with
  | PDict s =>
      match dict_get s "hub" with
      | PDict (h :: hs) =>
          match dict_get (h :: hs) "providers" with
          | PList ps => forallb plain_provider ps
          | v => negb (truthy v)
          end
      | _ => true
      end
  | _ => false
  end.

(** The first youtube provider of [hub] has [uri] as the URI of its first
    action. *)
Definition youtube_hub (hub : list (string * pyval)) (uri : string) : Prop :=
  exists before yt after action actions,
    dict_lookup "providers" hub
      = Some (PList (before ++ PDict yt :: after)%list) /\
    forallb plain_provider before = true /\
    dict_lookup "type" yt = Some (PStr "youtube") /\
    dict_lookup "actions" yt = Some (PList (PDict action :: actions)) /\
    dict_lookup "uri" action = Some (PStr uri).

(** The first qualifying hub of [sections] is a [youtube_hub] for [uri]. *)
Definition first_link (sections : list pyval) (uri : string) : Prop :=
  exists before sec hub after,
    sections = (before ++ PDict sec :: after)%list /\
    forallb no_link_section before = true /\
    dict_lookup "hub" sec = Some (PDict hub) /\
    youtube_hub hub uri.

(** A title or artist as it is shown. *)
Definition shown (s : string) : string :=
  if s =? "" then placeholder else s.

(** ** A concrete request

    A voice message in a world where every call succeeds unless told
    otherwise; the download, the subprocess and the engine are the three
    parameters. *)

Definition demo_media : media :=
  {| file_id := "AwACAgQ"; file_unique_id := "AgADxw"; file_name := None |}.

Definition voice_message : message :=
  {| voice := Some demo_media; audio := None; video := None;
     document := None; video_note := None |}.

Definition crowded_message : message :=
  {| voice := None; audio := None; video := Some demo_media;
     document := Some demo_media; video_note := Some demo_media |}.

Definition empty_message : message :=
  {| voice := None; audio := None; video := None;
     document := None; video_note := None |}.

Definition demo_update : update := {| upd_message := Some voice_message |}.

Definition demo_fs : filesystem := {| fs_dirs := ["/tmp"]; fs_files := [] |}.

Definition demo_tmpdir : string := "/tmp/tmpk3x".
Definition demo_in : string := "/tmp/tmpk3x/voice_AgADxw.ogg".
Definition demo_out : string := "/tmp/tmpk3x/converted.wav".
Definition demo_handle : string := "voice/file_7.oga".

Definition demo_raw : bytes := [Byte.x4f; Byte.x67; Byte.x67; Byte.x53].
Definition demo_audio : bytes := [Byte.x52; Byte.x49; Byte.x46; Byte.x46].

Definition studio (dl : pyexn + bytes)
  (proc : pyexn + (Z * list (string * bytes))) (answer : pyexn + pyval)
  : world :=
  {| w_get_file := fun _ _ => inr demo_handle;
     w_send := fun _ => None;
     w_tmpname := fun _ => inr demo_tmpdir;
     w_download := fun _ _ => dl;
     w_exec := fun _ _ => proc;
     w_shazam := fun _ => answer |}.

(** The world in which download and conversion work. *)
Definition lab (answer : pyexn + pyval) : world :=
  studio (inr demo_raw) (inr (0%Z, [(demo_out, demo_audio)])) answer.

Definition demo_in_tempdir : state :=
  {| st_fs := {| fs_dirs := [demo_tmpdir; "/tmp"]; fs_files := [] |};
     st_log := [EvGetFile Voice "AwACAgQ"; EvChatAction "typing";
                EvMkdtemp demo_tmpdir] |}.

Definition demo_downloaded : state :=
  {| st_fs := {| fs_dirs := [demo_tmpdir; "/tmp"];
                 fs_files := [(demo_in, demo_raw)] |};
     st_log := [EvGetFile Voice "AwACAgQ"; EvChatAction "typing";
                EvMkdtemp demo_tmpdir; EvDownload demo_handle demo_in] |}.

Definition demo_transcoded : state :=
  {| st_fs := {| fs_dirs := [demo_tmpdir; "/tmp"];
                 fs_files := [(demo_out, demo_audio); (demo_in, demo_raw)] |};
     st_log := [EvGetFile Voice "AwACAgQ"; EvChatAction "typing";
                EvMkdtemp demo_tmpdir; EvDownload demo_handle demo_in;
                EvSpawn (ffmpeg_cmd demo_in demo_out)] |}.

(** Three sections: one without a hub, one whose hub has a youtube link
    after another provider, and one with a youtube link of its own. *)
Definition linked_sections : list pyval :=
  [PDict [("type", PStr "SONG")];
   PDict [("hub",
           PDict [("providers",
                   PList [PDict [("type", PStr "spotify")];
                          PDict [("type", PStr "youtube");
                                 ("actions",
                                  PList [PDict [("uri",
                                                 PStr "http://example/u")]])]])])];
   PDict [("hub",
           PDict [("providers",
                   PList [PDict [("type", PStr "youtube");
                                 ("actions",
                                  PList [PDict [("uri",
                                                 PStr "http://example/v")]])]])])]].

(** A track with a title, an artist and those sections. *)
Definition linked_track : list (string * pyval) :=
  [("title", PStr "X"); ("subtitle", PStr "Y");
   ("sections", PList linked_sections)].

(** A track whose only field is the artist. *)
Definition untitled_track : list (string * pyval) := [("subtitle", PStr "Y")].

(** A track whose youtube provider lists no action. *)
Definition actionless_track : list (string * pyval) :=
  [("title", PStr "X"); ("subtitle", PStr "Y");
   ("sections",
    PList [PDict [("hub",
                   PDict [("providers",
                           PList [PDict [("type", PStr "youtube");
                                         ("actions", PList [])]])])]])].

Definition answer_with (track : pyval) : pyexn + pyval :=
  inr (PDict [("track", track)]).

(** ** Further notions for the whole handler *)

(** The ways a request can end, by the stage it got to. *)
Inductive ending (w : world) (upd : update) (fs : filesystem) : Prop :=
| NoMessage :
    upd_message upd = None -> ending w upd fs
| NoAttachment msg :
    upd_message upd = Some msg ->
    first_populated msg = None -> ending w upd fs
| GetFileRaised msg k m e :
    upd_message upd = Some msg ->
    first_populated msg = Some (k, m) ->
    w_get_file w k m = inl e -> ending w upd fs
| TypingRaised file_obj hint st e :
    reached w upd fs (Resolved file_obj hint) st ->
    w_send w (EvChatAction "typing") = Some e -> ending w upd fs
| MkdtempRaised file_obj hint st e :
    reached w upd fs (Resolved file_obj hint) st ->
    w_send w (EvChatAction "typing") = None ->
    w_mkdtemp w (st_fs st) = inl e -> ending w upd fs
| DownloadRaised file_obj hint tmpdir st e :
    reached w upd fs (InTempDir file_obj hint tmpdir) st ->
    w_download w file_obj (path_join tmpdir hint) = inl e -> ending w upd fs
| ConvertFailed tmpdir in_path out_wav st st' :
    reached w upd fs (Downloaded tmpdir in_path out_wav) st ->
    convert_to_wav w in_path out_wav st = (Ok false, st') -> ending w upd fs
| Responded tmpdir out_wav st :
    reached w upd fs (Transcoded tmpdir out_wav) st -> ending w upd fs.

(** The download, transcode and recognition calls a request can make: none,
    or an initial part of download, spawn, read, recognize, the read never
    without the engine call. *)
Definition stage_shape (calls : list event) : Prop :=
  calls = [] \/
  (exists f i, calls = [EvDownload f i]) \/
  (exists f i o, calls = [EvDownload f i; EvSpawn (ffmpeg_cmd i o)]) \/
  (exists f i o audio,
     calls = [EvDownload f i; EvSpawn (ffmpeg_cmd i o); EvRead o;
              EvRecognize audio]).

(** The file system the body of the [with] block leaves, from the one it
    starts in. *)
Definition fs_after_process (w : world) (file_obj hint tmpdir : string)
  (fs : filesystem) : filesystem :=
  let in_path := path_join tmpdir hint in
  let out_wav := path_join tmpdir "converted.wav" in
  match w_download w file_obj in_path with
  | inl _ => fs
  | inr data =>
      let fs1 := write_file in_path data fs in
      match w_exec w (ffmpeg_cmd in_path out_wav) fs1 with
      | inl _ => fs1
      | inr r => write_files (snd r) fs1
      end
  end.

(** Every file a subprocess of [w] writes lies in [tmpdir]. *)
Definition writes_inside (w : world) (tmpdir : string) : Prop :=
  forall cmd fs r,
    w_exec w cmd fs = inr r ->
    forallb (fun pb => under tmpdir (fst pb)) (snd r) = true.

(** A provider the link line can be built from: a record that is not of
    type youtube, or one whose actions are absent or start with a record. *)
Definition sound_provider (p : pyval) : bool :=
  match p with
  | PDict d =>
      if py_eq_str (dict_get d "type") "youtube" then
        match dict_lookup "actions" d with
        | None => true
        | Some (PList (PDict _ :: _)) => true
        | Some _ => false
        end
      else true
  | _ => false
  end.

(** A section the scan gets through: a record whose hub, when it is a
    record with fields, has providers that are absent, falsy, or a list of
    sound providers. *)
Definition sound_section (sec : pyval) : bool :=
  match sec with
  | PDict s =>
      match dict_get s "hub" with
      | PDict (h :: hs) =>
          match dict_get (h :: hs) "providers" with
          | PList ps => forallb sound_provider ps
          | v => negb (truthy v)
          end
      | _ => true
      end
  | _ => false
  end.

(** A value of ["sections"] the scan gets through. *)
Definition sound_sections (sections : pyval) : bool :=
  match sections with
  | PList secs => forallb sound_section secs
  | _ => true
  end.

(** A value of ["sections"] without a qualifying hub. *)
Definition linkless (sections : pyval) : bool :=
  match sections with
  | PList secs => forallb no_link_section secs
  | _ => true
  end.

(** An audio message with the given file name. *)
Definition audio_message (name : string) : message :=
  {| voice := None;
     audio := Some {| file_id := "CQACAgQ"; file_unique_id := "AgADzz";
                      file_name := Some name |};
     video := None; document := None; video_note := None |}.

Definition audio_in_tempdir : state :=
  {| st_fs := {| fs_dirs := [demo_tmpdir; "/tmp"]; fs_files := [] |};
     st_log := [EvGetFile Audio "CQACAgQ"; EvChatAction "typing";
                EvMkdtemp demo_tmpdir] |}.

(** * Properties *)

(** ** Reading the log, piecewise *)

Lemma replies_app a b : replies (a ++ b) = (replies a ++ replies b)%list.
Proof. apply flat_map_app. Qed.

Lemma fetched_app a b : fetched (a ++ b) = (fetched a ++ fetched b)%list.
Proof. apply flat_map_app. Qed.

Lemma fetched_none evs :
  forallb (fun ev => negb (is_fetch ev)) evs = true -> fetched evs = [].
Proof.
  induction evs as [|ev evs IH]; [reflexivity|].
  cbn [forallb]. intros [Hev Hevs]%andb_true_iff.
  destruct ev; try discriminate; exact (IH Hevs).
Qed.

(** ** The file system *)

Lemma same_segments_refl a : same_segments a a = true.
Proof.
  induction a as [|x a IH]; [reflexivity|].
  cbn. now rewrite String.eqb_refl.
Qed.

Lemma is_tail_refl a : is_tail a a = true.
Proof. destruct a; cbn; now rewrite ?String.eqb_refl, ?same_segments_refl. Qed.

Lemma under_self d : under d d = true.
Proof. unfold under. now rewrite Bool.eqb_reflx, is_tail_refl. Qed.

Lemma rmtree_dir d fs : dir_exists d (rmtree d fs) = false.
Proof.
  unfold dir_exists, rmtree; cbn [fs_dirs].
  induction (fs_dirs fs) as [|q dirs IH]; [reflexivity|].
  cbn [filter]. destruct (under d q) eqn:Hu; cbn [negb]; [exact IH|].
  cbn [existsb]. destruct (q =? d) eqn:Hq; [|exact IH].
  apply String.eqb_eq in Hq. subst q. now rewrite under_self in Hu.
Qed.

Lemma rmtree_file d fs p :
  under d p = true -> file_exists p (rmtree d fs) = false.
Proof.
  intros Hp. unfold file_exists, rmtree; cbn [fs_files].
  induction (fs_files fs) as [|[q b] files IH]; [reflexivity|].
  cbn [filter fst].
  destruct (under d q) eqn:Hq; cbn [negb]; [exact IH|].
  cbn [read_path]. destruct (q =? p) eqn:Hqp; [|exact IH].
  apply String.eqb_eq in Hqp. congruence.
Qed.

Lemma walk_slash a p q stack seg :
  walk a (p ++ String "/" q) stack seg = walk a q (walk a p stack seg) "".
Proof.
  revert stack seg. induction p as [|c p IH]; intros stack seg; cbn.
  - reflexivity.
  - destruct (Ascii.eqb c "/"); apply IH.
Qed.

(** The converted file is looked for below the temporary directory. *)
Lemma under_converted d : under d (path_join d "converted.wav") = true.
Proof.
  unfold path_join. change (prefix "/" "converted.wav") with false. cbn iota.
  destruct (d =? "") eqn:E.
  - apply String.eqb_eq in E. subst d. reflexivity.
  - unfold under, resolved.
    assert (Habs : prefix "/" (d ++ "/" ++ "converted.wav") = prefix "/" d).
    { destruct d as [|c d]; [discriminate|]. cbn [append prefix].
      destruct (ascii_dec "/" c); [|reflexivity]. now destruct d. }
    rewrite Habs, Bool.eqb_reflx. cbn [andb].
    change (d ++ "/" ++ "converted.wav")
      with (d ++ String "/" "converted.wav").
    rewrite walk_slash.
    change (walk (prefix "/" d) "converted.wav"
              (walk (prefix "/" d) d [] "") "")
      with ("converted.wav" :: walk (prefix "/" d) d [] "").
    cbn [is_tail]. rewrite is_tail_refl. apply orb_true_r.
Qed.

Lemma append_longer (d t : string) : t <> "" -> d ++ t <> d.
Proof.
  intros Ht. induction d as [|c d IH]; cbn; [exact Ht|].
  intros [= H]. exact (IH H).
Qed.

Lemma converted_is_not_tmpdir d : (d =? path_join d "converted.wav") = false.
Proof.
  apply String.eqb_neq. unfold path_join.
  change (prefix "/" "converted.wav") with false. cbn iota.
  destruct (d =? "") eqn:E.
  - apply String.eqb_eq in E. subst d. discriminate.
  - intros H. symmetry in H. revert H. apply append_longer. discriminate.
Qed.

Lemma fs_dirs_write_files ws fs : fs_dirs (write_files ws fs) = fs_dirs fs.
Proof.
  revert fs. induction ws as [|[p b] ws IH]; intros fs; [reflexivity|].
  unfold write_files in *. cbn [fold_left]. now rewrite IH.
Qed.

(** In a new temporary directory there is no directory where the converted
    file goes. *)
Lemma converted_is_no_directory d fs dirs files :
  fresh_in d fs = true ->
  dirs = d :: fs_dirs fs ->
  dir_exists (path_join d "converted.wav")
    {| fs_dirs := dirs; fs_files := files |} = false.
Proof.
  intros [Hd _]%andb_true_iff ->. unfold dir_exists. cbn [fs_dirs existsb].
  rewrite converted_is_not_tmpdir. cbn [orb].
  induction (fs_dirs fs) as [|q qs IH]; [reflexivity|].
  cbn [forallb] in Hd. apply andb_true_iff in Hd as [Hq Hqs].
  cbn [existsb]. rewrite (IH Hqs), orb_false_r.
  destruct (q =? path_join d "converted.wav") eqn:E; [|reflexivity].
  apply String.eqb_eq in E. subst q.
  now rewrite under_converted in Hq.
Qed.

Lemma w_mkdtemp_fresh w fs d :
  w_mkdtemp w fs = inr d -> fresh_in d fs = true.
Proof.
  unfold w_mkdtemp. destruct (w_tmpname w fs) as [e|d']; [discriminate|].
  destruct (fresh_in d' fs) eqn:E; [|discriminate]. now intros [= <-].
Qed.

(** ** Substrings *)

Lemma append_assoc (a b c : string) : (a ++ b) ++ c = a ++ b ++ c.
Proof. induction a as [|x a IH]; cbn; [reflexivity | now rewrite IH]. Qed.

Lemma prefix_app s t : prefix s (s ++ t) = true.
Proof.
  induction s as [|c s IH]; cbn; [now destruct t|].
  destruct (ascii_dec c c); [exact IH | congruence].
Qed.

Lemma occurs_prefix s t : prefix s t = true -> occurs s t = true.
Proof. intros H. destruct t; cbn [occurs]; rewrite H; reflexivity. Qed.

Lemma occurs_here s t : occurs s (s ++ t) = true.
Proof. apply occurs_prefix, prefix_app. Qed.

Lemma occurs_after s a t : occurs s t = true -> occurs s (a ++ t) = true.
Proof.
  intros H. induction a as [|c a IH]; [exact H|].
  cbn [append occurs]. rewrite IH. apply orb_true_r.
Qed.

Lemma occurs_shown s t : occurs s (shown s ++ t) = true.
Proof.
  unfold shown. destruct (s =? "") eqn:E; [|apply occurs_here].
  apply String.eqb_eq in E. subst s.
  apply occurs_prefix. now destruct (placeholder ++ t).
Qed.

(** ** The stages, one by one *)

Section Stages.

Variable py_format : pyval -> string.
Variable w : world.

Lemma resolve_first_populated (msg : message) :
  resolve w msg =
  match first_populated msg with
  | Some (k, m) =>
      file_obj <- get_file w k m ;;
      ret (Some (file_obj, hint_of k m))
  | None => reply_text w usage_prompt ;;; ret None
  end.
Proof.
  unfold resolve, first_populated, priority; cbn [first_populated_in attachment].
  destruct (voice msg); [reflexivity|].
  destruct (audio msg); [reflexivity|].
  destruct (video msg); [reflexivity|].
  destruct (document msg); [reflexivity|].
  destruct (video_note msg); reflexivity.
Qed.

Lemma reply_text_run text st :
  reply_text w text st =
  (sent w text,
   {| st_fs := st_fs st; st_log := st_log st ++ [EvReplyText text] |}).
Proof.
  unfold reply_text, send, sent, bind, emit; cbn.
  destruct (w_send w (EvReplyText text)); reflexivity.
Qed.

Lemma convert_to_wav_run i o st :
  convert_to_wav w i o st =
  match w_exec w (ffmpeg_cmd i o) (st_fs st) with
  | inl e =>
      (Ok false,
       {| st_fs := st_fs st;
          st_log := st_log st ++ [EvSpawn (ffmpeg_cmd i o);
                                  EvPrint "ffmpeg conversion failed:" e] |})
  | inr r =>
      (Ok (exists_at o (write_files (snd r) (st_fs st))),
       {| st_fs := write_files (snd r) (st_fs st);
          st_log := st_log st ++ [EvSpawn (ffmpeg_cmd i o)] |})
  end.
Proof.
  unfold convert_to_wav, run_subprocess, path_exists, try_, bind, emit, get_fs,
    set_fs, print, emit, of_sum, ret, raise; cbn.
  destruct (w_exec w (ffmpeg_cmd i o) (st_fs st)) as [e | r]; cbn.
  - rewrite <- app_assoc. reflexivity.
  - reflexivity.
Qed.

Lemma recognize_with_shazam_run o st audio :
  read_path o (fs_files (st_fs st)) = Some audio ->
  recognize_with_shazam w o st =
  (Ok (answer_of (w_shazam w audio)),
   {| st_fs := st_fs st;
      st_log := st_log st ++ EvRead o :: EvRecognize audio ::
                match w_shazam w audio with
                | inl e => [EvPrint "shazam recognition error:" e]
                | inr _ => []
                end |}).
Proof.
  intros Hread.
  unfold recognize_with_shazam, read_file, recognize_song, try_, bind, emit,
    get_fs, print, emit, of_sum, ret, raise; cbn.
  rewrite Hread; cbn.
  destruct (w_shazam w audio) as [e | v]; cbn;
    rewrite <- ?app_assoc; reflexivity.
Qed.

Lemma respond_run result st :
  respond py_format w result st =
  if truthy (track_of result) then
    match track_reply py_format (track_of result) with
    | Ok reply => reply_text w reply st
    | Raise e => (Raise e, st)
    end
  else reply_text w no_match st.
Proof.
  unfold respond, bind, lift.
  assert (Htrack : (if is_dict result then py_get result "track" PNone
                    else Ok PNone) = Ok (track_of result)).
  { destruct result; try reflexivity. cbn. unfold dict_get.
    destruct (dict_lookup "track" d); reflexivity. }
  rewrite Htrack.
  destruct (truthy (track_of result)); [|reflexivity].
  destruct (track_reply py_format (track_of result)); reflexivity.
Qed.

Lemma process_download_failure f hint d st e :
  w_download w f (path_join d hint) = inl e ->
  process py_format w f hint d st =
  (sent w download_error,
   {| st_fs := st_fs st;
      st_log := st_log st ++ EvDownload f (path_join d hint)
                  :: EvReplyText download_error
                  :: match sent w download_error with
                     | Ok _ => [EvPrint "download error:" e]
                     | Raise _ => []
                     end |}).
Proof.
  intros Hdl.
  unfold process, try_, download_to_drive, reply_text, send, sent, print, bind,
    emit, of_sum, raise, ret; cbn.
  rewrite Hdl; cbn.
  destruct (w_send w (EvReplyText download_error)); cbn;
    rewrite <- !app_assoc; reflexivity.
Qed.

(** ** From a stage to the end of the request *)

Lemma reached_run upd fs s st :
  reached w upd fs s st ->
  run_request py_format w upd fs = remainder py_format w s st.
Proof.
  induction 1 as [msg k m f Hmsg Hfirst Hget
                 | f hint st d _ IH Hsend Hmk
                 | f hint d st st' _ IH Hdl
                 | d i o st st' _ IH Hconv]; rewrite ?IH.
  - unfold run_request, handle_msg.
    rewrite Hmsg, resolve_first_populated, Hfirst.
    unfold bind, get_file, emit, of_sum; cbn. rewrite Hget. reflexivity.
  - cbn [remainder]. unfold bind, reply_chat_action, send, emit. cbn.
    rewrite Hsend. unfold ret, with_TemporaryDirectory, close.
    cbn [st_fs st_log]. rewrite Hmk, <- app_assoc. cbn [app].
    destruct (process _ _ _ _ _ _) as [r st2]. reflexivity.
  - cbn [remainder]. f_equal. unfold process.
    unfold bind at 1. unfold try_. rewrite Hdl. reflexivity.
  - cbn [remainder]. f_equal. unfold bind at 1. rewrite Hconv. reflexivity.
Qed.

(** No reply is sent before the recognition stage is over. *)
Lemma reached_quiet upd fs s st :
  reached w upd fs s st -> replies (st_log st) = [].
Proof.
  induction 1 as [msg k m f Hmsg Hfirst Hget
                 | f hint st d _ IH Hsend Hmk
                 | f hint d st st' _ IH Hdl
                 | d i o st st' _ IH Hconv].
  - reflexivity.
  - cbn. rewrite replies_app, IH. reflexivity.
  - revert Hdl. unfold download_to_drive, bind, emit, get_fs, set_fs, of_sum,
      ret, raise; cbn.
    destruct (w_download w f (path_join d hint)); cbn; [discriminate|].
    intros [= <-]; cbn. rewrite replies_app, IH. reflexivity.
  - rewrite convert_to_wav_run in Hconv.
    destruct (w_exec w (ffmpeg_cmd i o) (st_fs st)); injection Hconv as _ <-;
      cbn; rewrite replies_app, IH; reflexivity.
Qed.

Lemma reached_tempdir_log upd fs f hint d st :
  reached w upd fs (InTempDir f hint d) st ->
  exists k id,
    st_log st = [EvGetFile k id; EvChatAction "typing"; EvMkdtemp d].
Proof.
  inversion 1 as [ | f' hint' st0 d' Hres _ _ | | ]; subst.
  inversion Hres; subst. cbn. eauto.
Qed.

(** Where the directories of a request are: the temporary directory is a
    new one, no directory is made or removed while the stages run, and the
    converted file has its place in the temporary directory. *)
Lemma reached_place upd fs s st :
  reached w upd fs s st ->
  match s with
  | Resolved _ _ => st_fs st = fs
  | InTempDir _ _ d => st_fs st = mkdir d fs /\ fresh_in d fs = true
  | Downloaded d _ o | Transcoded d o =>
      fs_dirs (st_fs st) = d :: fs_dirs fs /\ fresh_in d fs = true /\
      o = path_join d "converted.wav"
  end.
Proof.
  induction 1 as [msg k m f Hmsg Hfirst Hget
                 | f hint st d _ IH Hsend Hmk
                 | f hint d st st' _ IH Hdl
                 | d i o st st' _ IH Hconv].
  - reflexivity.
  - cbn. rewrite IH in Hmk |- *. split; [reflexivity|].
    exact (w_mkdtemp_fresh _ _ _ Hmk).
  - destruct IH as [Hfs Hfresh].
    revert Hdl. unfold download_to_drive, bind, emit, get_fs, set_fs, of_sum,
      ret, raise; cbn.
    destruct (w_download w f (path_join d hint)); cbn; [discriminate|].
    intros [= <-]; cbn. rewrite Hfs. auto.
  - destruct IH as (Hdirs & Hfresh & Ho).
    rewrite convert_to_wav_run in Hconv.
    destruct (w_exec w (ffmpeg_cmd i o) (st_fs st)); [discriminate|].
    injection Hconv as _ <-. cbn. rewrite fs_dirs_write_files. auto.
Qed.

(** The converted file is there when the recognition stage starts. *)
Lemma transcoded_exists upd fs d o st :
  reached w upd fs (Transcoded d o) st -> file_exists o (st_fs st) = true.
Proof.
  intros Hreach.
  destruct (reached_place _ _ _ _ Hreach) as (Hdirs & Hfresh & Ho).
  inversion Hreach as [ | | | d' i o' st0 st' _ Hconv]; subst d' o' st'.
  rewrite convert_to_wav_run in Hconv.
  destruct (w_exec w (ffmpeg_cmd i o) (st_fs st0)); [discriminate|].
  injection Hconv as Hex Hst. unfold exists_at in Hex.
  rewrite <- Hst in Hdirs |- *. cbn [st_fs] in Hdirs |- *.
  destruct (write_files (snd p) (st_fs st0)) as [dirs files].
  cbn [fs_dirs] in Hdirs.
  rewrite Ho, (converted_is_no_directory _ _ _ _ Hfresh Hdirs), orb_false_r
    in Hex.
  now rewrite Ho.
Qed.

(** A request whose engine call came back runs the formatter on the
    answer, in a state without replies. *)
Lemma recognized_run upd fs d st audio r :
  recognized w upd fs d st audio r ->
  exists st',
    run_request py_format w upd fs
      = close d (respond py_format w (answer_of r) st') /\
    replies (st_log st') = [].
Proof.
  intros (o & Hreach & Hread & Hr).
  eexists. split.
  - rewrite (reached_run _ _ _ _ Hreach). cbn [remainder].
    unfold bind at 1. rewrite (recognize_with_shazam_run _ _ _ Hread), Hr.
    reflexivity.
  - cbn [st_log]. rewrite replies_app, (reached_quiet _ _ _ _ Hreach).
    subst r. destruct (w_shazam w audio); reflexivity.
Qed.

(** ** What a computation may log *)

Lemma logs_ret {A} P (a : A) : logs_only P (ret a).
Proof. intros st. exists []. now rewrite app_nil_r. Qed.

Lemma logs_raise {A} P e : logs_only P (@raise A e).
Proof. intros st. exists []. now rewrite app_nil_r. Qed.

Lemma logs_lift {A} P (o : outcome A) : logs_only P (lift o).
Proof. intros st. exists []. now rewrite app_nil_r. Qed.

Lemma logs_get_fs P : logs_only P get_fs.
Proof. intros st. exists []. now rewrite app_nil_r. Qed.

Lemma logs_set_fs P fs : logs_only P (set_fs fs).
Proof. intros st. exists []. cbn. now rewrite app_nil_r. Qed.

Lemma logs_of_sum {A} P (r : pyexn + A) : logs_only P (of_sum r).
Proof. destruct r; [apply logs_raise | apply logs_ret]. Qed.

Lemma logs_emit P ev : P ev = true -> logs_only P (emit ev).
Proof. intros H st. exists [ev]. cbn. now rewrite H. Qed.

Lemma logs_bind {A B} P (c : M A) (k : A -> M B) :
  logs_only P c -> (forall a, logs_only P (k a)) -> logs_only P (bind c k).
Proof.
  intros Hc Hk st. unfold bind.
  destruct (Hc st) as (evs & Hlog & Hevs).
  destruct (c st) as [[a | e] st1]; cbn in Hlog.
  - destruct (Hk a st1) as (evs' & Hlog' & Hevs').
    exists (evs ++ evs')%list.
    rewrite Hlog', Hlog, app_assoc, forallb_app, Hevs, Hevs'. auto.
  - exists evs. auto.
Qed.

Lemma logs_try {A} P (c : M A) : logs_only P c -> logs_only P (try_ c).
Proof.
  intros Hc st. unfold try_. destruct (Hc st) as (evs & Hlog & Hevs).
  destruct (c st) as [[a | e] st1]; exists evs; auto.
Qed.

Lemma logs_with_TemporaryDirectory {A} P (body : string -> M A) :
  (forall d, P (EvMkdtemp d) = true) ->
  (forall d, P (EvCleanup d) = true) ->
  (forall d, logs_only P (body d)) ->
  logs_only P (with_TemporaryDirectory w body).
Proof.
  intros Hmk Hrm Hbody st. unfold with_TemporaryDirectory.
  destruct (w_mkdtemp w (st_fs st)) as [e | d].
  - exists []. now rewrite app_nil_r.
  - match goal with |- context [body d ?s] =>
      destruct (Hbody d s) as (evs & Hlog & Hevs);
      destruct (body d s) as [r st2]
    end.
    cbn in Hlog |- *. exists (EvMkdtemp d :: evs ++ [EvCleanup d])%list.
    rewrite Hlog, <- !app_assoc. cbn. rewrite Hmk, forallb_app, Hevs. cbn.
    now rewrite Hrm.
Qed.

Create HintDb logs.

#[local] Hint Resolve logs_ret logs_raise logs_lift logs_get_fs logs_set_fs
  logs_of_sum logs_try : logs.

Ltac logs_step :=
  match goal with
  | |- logs_only _ (bind _ _) => apply logs_bind; [|intros ?]
  | |- logs_only _ (emit _) => apply logs_emit; reflexivity
  | |- logs_only _ (try_ _) => apply logs_try
  | |- logs_only _ (match ?x with _ => _ end) => destruct x
  | |- logs_only _ _ => solve [auto with logs]
  end.

(** Inside the [with] block no file handle is asked for. *)
Lemma process_logs f hint d :
  logs_only (fun ev => negb (is_fetch ev)) (process py_format w f hint d).
Proof.
  unfold process, download_to_drive, convert_to_wav, run_subprocess,
    path_exists, recognize_with_shazam, read_file, recognize_song, respond,
    reply_text, send, print.
  repeat logs_step.
Qed.

(** ** The scan for a link *)

Lemma scan_providers_plain ps more :
  forallb plain_provider ps = true ->
  scan_providers py_format ps more = Ok more.
Proof.
  induction ps as [|p ps IH]; [reflexivity|].
  cbn [forallb]. intros [Hp Hps]%andb_true_iff.
  destruct p; try discriminate. cbn in Hp |- *. unfold dict_get in Hp.
  destruct (dict_lookup "type" d) as [ty|]; cbn.
  - apply negb_true_iff in Hp. rewrite Hp. exact (IH Hps).
  - exact (IH Hps).
Qed.

Lemma scan_sections_skip before rest :
  forallb no_link_section before = true ->
  scan_sections py_format (before ++ rest) "" = scan_sections py_format rest "".
Proof.
  induction before as [|sec before IH]; [reflexivity|].
  cbn [forallb]. intros [Hsec Hbefore]%andb_true_iff.
  specialize (IH Hbefore).
  destruct sec as [ | | | | | | s]; try discriminate.
  cbn [app scan_sections py_get obind].
  unfold no_link_section, dict_get in Hsec.
  destruct (dict_lookup "hub" s) as [hub|]; cbn [obind];
    [|cbn; exact IH].
  destruct hub as [ | | | | | | [|h hs]]; try (cbn; exact IH).
  - cbn. destruct b; cbn; exact IH.
  - cbn. destruct (negb (z =? 0)%Z); cbn; exact IH.
  - cbn. destruct f; cbn; exact IH.
  - cbn. destruct (negb (s0 =? "")); cbn; exact IH.
  - cbn. destruct l; cbn; exact IH.
  - change (truthy (PDict (h :: hs)) && is_dict (PDict (h :: hs))) with true.
    cbn iota. cbn [py_get].
    destruct (dict_lookup "providers" (h :: hs)) as [found|];
      cbn [obind]; [|cbn; exact IH].
    assert (Hscan :
      obind (py_iter (py_or found (PList [])))
        (fun providers => scan_providers py_format providers "") = Ok "").
    { unfold py_or.
      destruct found as [ | | | | | ps | ]; cbn in Hsec;
        try (apply negb_true_iff in Hsec; cbn; rewrite Hsec; reflexivity);
        try reflexivity.
      destruct ps as [|p ps]; [reflexivity|].
      change (truthy (PList (p :: ps))) with true. cbn [py_iter obind].
      exact (scan_providers_plain _ _ Hsec). }
    rewrite Hscan. cbn. exact IH.
Qed.

Lemma label_not_empty t : (link_label ++ t =? "") = false.
Proof. reflexivity. Qed.

Lemma scan_providers_hit before yt after action actions uri more :
  forallb plain_provider before = true ->
  dict_lookup "type" yt = Some (PStr "youtube") ->
  dict_lookup "actions" yt = Some (PList (PDict action :: actions)) ->
  dict_lookup "uri" action = Some uri ->
  scan_providers py_format (before ++ PDict yt :: after) more
    = Ok (link_label ++ py_format uri).
Proof.
  intros Hbefore Hty Hactions Huri.
  induction before as [|p before IH].
  - cbn. rewrite Hty. cbn. rewrite Hactions. cbn. rewrite Huri. reflexivity.
  - cbn [forallb] in Hbefore. apply andb_true_iff in Hbefore as [Hp Hbefore].
    destruct p; try discriminate. cbn in Hp. unfold dict_get in Hp.
    cbn [app scan_providers py_get].
    destruct (dict_lookup "type" d) as [ty|]; cbn [obind].
    + apply negb_true_iff in Hp. rewrite Hp. exact (IH Hbefore).
    + exact (IH Hbefore).
Qed.

(** The scan ends at the first qualifying hub, whatever comes after it. *)
Lemma find_link_first sections uri :
  first_link sections uri ->
  find_link py_format (PList sections)
    = Ok (link_label ++ py_format (PStr uri)).
Proof.
  intros (before & sec & hub & after & -> & Hbefore & Hhub & Hyt).
  destruct Hyt as (pb & yt & pa & action & actions
                   & Hprov & Hpb & Hty & Hactions & Huri).
  unfold find_link.
  assert (Htruthy : truthy (PList (before ++ PDict sec :: after)) = true)
    by now destruct before.
  rewrite Htruthy. cbn [is_list andb py_iter obind].
  rewrite (scan_sections_skip _ _ Hbefore).
  cbn [scan_sections py_get]. rewrite Hhub. cbn [obind].
  assert (Hne : exists h hs, hub = h :: hs).
  { destruct hub; [discriminate | eauto]. }
  destruct Hne as (h & hs & ->).
  change (truthy (PDict (h :: hs)) && is_dict (PDict (h :: hs))) with true.
  cbn iota. cbn [py_get]. rewrite Hprov. cbn [obind].
  assert (Hor : py_or (PList (pb ++ PDict yt :: pa)) (PList [])
                = PList (pb ++ PDict yt :: pa)) by now destruct pb.
  rewrite Hor. cbn [py_iter obind].
  rewrite (scan_providers_hit _ _ _ _ _ _ _ Hpb Hty Hactions Huri).
  cbn [obind]. rewrite label_not_empty. reflexivity.
Qed.

End Stages.

(** * The claims *)

Section Claims.

Variable py_format : pyval -> string.
Variable w : world.

(** Formatting a string gives the string. *)
Hypothesis py_format_str : forall s, py_format (PStr s) = s.

(** C1.  The transcode stage starts [ffmpeg] once, with the fixed
    arguments, in the file system it is entered with, and never raises.
    When the subprocess cannot be started the stage reports failure and the
    file system is untouched.  When the subprocess comes to its end, the
    file system is the one it leaves, and the stage reports success exactly
    when the output path exists there: a subprocess that writes the output
    file makes the stage succeed whatever its exit status, one that writes
    nothing where no output was makes it fail whatever its exit status.
    Replacing the exit status by any other one leaves the run of the stage
    unchanged. *)
Theorem transcode_success_is_output_existence i o st :
  match w_exec w (ffmpeg_cmd i o) (st_fs st) with
  | inl e =>
      convert_to_wav w i o st
      = (Ok false,
         {| st_fs := st_fs st;
            st_log := st_log st ++ [EvSpawn (ffmpeg_cmd i o);
                                    EvPrint "ffmpeg conversion failed:" e] |})
  | inr r =>
      convert_to_wav w i o st
      = (Ok (exists_at o (write_files (snd r) (st_fs st))),
         {| st_fs := write_files (snd r) (st_fs st);
            st_log := st_log st ++ [EvSpawn (ffmpeg_cmd i o)] |})
  end /\
  (forall status data,
     w_exec w (ffmpeg_cmd i o) (st_fs st) = inr (status, [(o, data)]) ->
     fst (convert_to_wav w i o st) = Ok true) /\
  (forall status,
     w_exec w (ffmpeg_cmd i o) (st_fs st) = inr (status, []) ->
     exists_at o (st_fs st) = false ->
     fst (convert_to_wav w i o st) = Ok false) /\
  (forall status,
     convert_to_wav (with_status status w) i o st = convert_to_wav w i o st).
Proof.
  split; [|split; [|split]].
  - rewrite convert_to_wav_run.
    destruct (w_exec w (ffmpeg_cmd i o) (st_fs st)); reflexivity.
  - intros status data Hexec. rewrite convert_to_wav_run, Hexec.
    cbn [fst snd write_files fold_left]. unfold exists_at, file_exists.
    cbn [write_file fs_files write_path read_path].
    now rewrite String.eqb_refl.
  - intros status Hexec Hnone. rewrite convert_to_wav_run, Hexec.
    cbn [fst snd write_files fold_left]. now rewrite Hnone.
  - intros status. rewrite !convert_to_wav_run. cbn.
    destruct (w_exec w (ffmpeg_cmd i o) (st_fs st)) as [e | r]; reflexivity.
Qed.

(** C2.  A request that reaches the recognition stage finds the converted
    file, and the stage returns whatever the engine does: an exception of
    the engine becomes the empty answer.  The request goes on to the
    formatter with that answer.  When the engine raised, answered the empty
    dict, or answered a dict whose track is absent or null, the one reply
    is the no-match text and the request ends as the sending of it ends. *)
Theorem recognition_failure_is_no_match upd fs tmpdir out_wav st :
  reached w upd fs (Transcoded tmpdir out_wav) st ->
  exists audio st',
    read_path out_wav (fs_files (st_fs st)) = Some audio /\
    recognize_with_shazam w out_wav st
      = (Ok (answer_of (w_shazam w audio)), st') /\
    run_request py_format w upd fs
      = close tmpdir (respond py_format w (answer_of (w_shazam w audio)) st') /\
    (no_result (w_shazam w audio) = true ->
     replies (events py_format w upd fs) = [no_match] /\
     fst (run_request py_format w upd fs) = sent w no_match).
Proof.
  intros Hreach.
  pose proof (transcoded_exists _ _ _ _ _ _ Hreach) as Hex.
  unfold file_exists in Hex.
  destruct (read_path out_wav (fs_files (st_fs st))) as [audio|] eqn:Hread;
    [clear Hex | discriminate].
  pose proof (recognize_with_shazam_run w _ _ _ Hread) as Hrec.
  pose proof (reached_run py_format _ _ _ _ _ Hreach) as Hrun.
  cbn [remainder] in Hrun. unfold bind at 1 in Hrun. rewrite Hrec in Hrun.
  eexists audio, _.
  split; [reflexivity | split; [exact Hrec | split; [exact Hrun | intros Hno]]].
  assert (Htr : truthy (track_of (answer_of (w_shazam w audio))) = false).
  { destruct (w_shazam w audio) as [e | [ | | | | | | resp]]; try discriminate;
      try reflexivity.
    cbn in *. unfold dict_get.
    destruct (dict_lookup "track" resp) as [[]|]; try discriminate;
      reflexivity. }
  unfold events. rewrite Hrun, respond_run, Htr, reply_text_run. cbn.
  rewrite !replies_app, (reached_quiet _ _ _ _ _ Hreach). cbn.
  destruct (w_shazam w audio); split; reflexivity.
Qed.

Lemma after_resolve_logs f hint :
  logs_only (fun ev => negb (is_fetch ev))
    (reply_chat_action w "typing" ;;;
     with_TemporaryDirectory w (process py_format w f hint)).
Proof.
  apply logs_bind.
  - unfold reply_chat_action, send.
    apply logs_bind; [apply logs_emit; reflexivity | intros _].
    destruct (w_send w _); [apply logs_raise | apply logs_ret].
  - intros _. apply logs_with_TemporaryDirectory; try reflexivity.
    intros d. apply process_logs.
Qed.

(** C4.  The resolver is the search for the first populated field in the
    order voice, audio, video, document, video note: it asks for the file of
    that attachment and of no other, and a whole request asks for at most
    that one file. *)
Theorem attachment_priority msg fs :
  resolve w msg
    = match first_populated msg with
      | Some (k, m) =>
          file_obj <- get_file w k m ;;
          ret (Some (file_obj, hint_of k m))
      | None => reply_text w usage_prompt ;;; ret None
      end /\
  fetched (events py_format w {| upd_message := Some msg |} fs)
    = match first_populated msg with
      | Some (k, m) => [(k, file_id m)]
      | None => []
      end.
Proof.
  split; [apply resolve_first_populated|].
  unfold events, run_request, handle_msg; cbn [upd_message].
  rewrite resolve_first_populated.
  destruct (first_populated msg) as [[k m]|].
  - unfold bind at 1. unfold bind at 1.
    unfold get_file, bind at 1, emit, of_sum. cbn [st_fs st_log app].
    destruct (w_get_file w k m) as [e | f]; [reflexivity|].
    cbv beta iota delta [ret].
    match goal with |- context [bind _ _ ?s0] =>
      destruct (after_resolve_logs f (hint_of k m) s0) as (evs & Hlog & Hevs)
    end.
    rewrite Hlog, fetched_app, (fetched_none _ Hevs). reflexivity.
  - unfold bind at 1. unfold bind at 1. rewrite reply_text_run.
    unfold sent. destruct (w_send w (EvReplyText usage_prompt)); reflexivity.
Qed.

Lemma py_format_shown s :
  py_format (py_or (PStr s) (PStr placeholder)) = shown s.
Proof.
  unfold py_or, shown; cbn. destruct (s =? ""); cbn; apply py_format_str.
Qed.

Lemma track_reply_dict track :
  track_reply py_format (PDict track)
  = obind (find_link py_format (dict_get track "sections")) (fun more =>
      Ok (title_label
          ++ py_format (py_or (dict_get track "title") (PStr placeholder))
          ++ artist_label
          ++ py_format (py_or (dict_get track "subtitle") (PStr placeholder))
          ++ more)).
Proof.
  unfold track_reply, py_get, dict_get.
  destruct (dict_lookup "title" track), (dict_lookup "subtitle" track),
    (dict_lookup "sections" track); reflexivity.
Qed.

(** C5.  When the engine answers with a track of title X and artist Y whose
    sections, read in order, have as first qualifying hub one whose first
    youtube provider carries the URI u, the one reply is the title line with
    X, the artist line with Y and the link line ending in u.  Nothing that
    follows that hub, a later link included, changes the reply. *)
Theorem first_link_is_appended upd fs tmpdir st audio resp track
    title subtitle sections uri :
  recognized w upd fs tmpdir st audio (inr (PDict resp)) ->
  dict_lookup "track" resp = Some (PDict track) ->
  dict_lookup "title" track = Some (PStr title) ->
  dict_lookup "subtitle" track = Some (PStr subtitle) ->
  dict_lookup "sections" track = Some (PList sections) ->
  first_link sections uri ->
  let reply := title_label ++ shown title ++ artist_label ++ shown subtitle
                 ++ link_label ++ uri in
  replies (events py_format w upd fs) = [reply] /\
  fst (run_request py_format w upd fs) = sent w reply /\
  occurs title reply = true /\
  occurs subtitle reply = true /\
  exists head, reply = head ++ uri.
Proof.
  intros Hrec Htrack Htitle Hsub Hsec Hlink reply.
  destruct (recognized_run py_format _ _ _ _ _ _ _ Hrec) as (st' & Hrun & Hquiet).
  assert (Hreply : track_reply py_format (PDict track) = Ok reply).
  { rewrite track_reply_dict. unfold dict_get. rewrite Htitle, Hsub, Hsec.
    rewrite (find_link_first _ _ _ Hlink), !py_format_shown, py_format_str.
    reflexivity. }
  assert (Hne : truthy (PDict track) = true) by now destruct track.
  unfold events. rewrite Hrun, respond_run. cbn [answer_of track_of].
  unfold dict_get. rewrite Htrack, Hne, Hreply, reply_text_run.
  cbn [close fst snd st_log]. rewrite !replies_app, Hquiet.
  split; [reflexivity | split; [reflexivity|]].
  split; [|split].
  - apply occurs_after, occurs_shown.
  - unfold reply. apply occurs_after, occurs_after, occurs_after, occurs_shown.
  - exists (title_label ++ shown title ++ artist_label ++ shown subtitle
              ++ link_label).
    unfold reply. now rewrite !append_assoc.
Qed.

(** C6.  A message without any attachment gets the usage prompt and
    nothing else happens: the prompt is the only event of the request, no
    download, transcode or recognition call is made and the file system is
    left as it was. *)
Theorem no_attachment_prompts msg fs :
  (forall k, attachment msg k = None) ->
  events py_format w {| upd_message := Some msg |} fs
    = [EvReplyText usage_prompt] /\
  stage_calls (events py_format w {| upd_message := Some msg |} fs) = [] /\
  final_fs py_format w {| upd_message := Some msg |} fs = fs.
Proof.
  intros Hnone.
  assert (Hfirst : first_populated msg = None).
  { unfold first_populated, priority; cbn [first_populated_in].
    now rewrite !Hnone. }
  assert (Hrun : run_request py_format w {| upd_message := Some msg |} fs
                 = (sent w usage_prompt,
                    {| st_fs := fs; st_log := [EvReplyText usage_prompt] |})).
  { unfold run_request, handle_msg; cbn [upd_message].
    rewrite resolve_first_populated, Hfirst.
    unfold bind. rewrite reply_text_run.
    unfold sent. destruct (w_send w (EvReplyText usage_prompt)); reflexivity. }
  unfold events, final_fs. rewrite Hrun. cbn. auto.
Qed.

(** C7.  When the download raises, the one reply is the download-error
    text, the download is the only stage call of the request, and the
    request ends there, as the sending of that reply ends. *)
Theorem download_failure_aborts upd fs f hint d st e :
  reached w upd fs (InTempDir f hint d) st ->
  w_download w f (path_join d hint) = inl e ->
  replies (events py_format w upd fs) = [download_error] /\
  stage_calls (events py_format w upd fs) = [EvDownload f (path_join d hint)] /\
  fst (run_request py_format w upd fs) = sent w download_error.
Proof.
  intros Hreach Hdl.
  destruct (reached_tempdir_log _ _ _ _ _ _ _ Hreach) as (k & id & Hlog).
  unfold events. rewrite (reached_run py_format _ _ _ _ _ Hreach).
  cbn [remainder]. rewrite (process_download_failure _ _ _ _ _ _ _ Hdl).
  unfold sent. destruct (w_send w (EvReplyText download_error)); rewrite Hlog;
    cbn; repeat split; reflexivity.
Qed.

(** C8, as amended.  When the engine answers with a track that is a record
    with at least one field, and the scan of its sections comes to an end
    with the link text [more], the one reply is the title line, the artist
    line and [more], and a title or an artist that is missing from the
    record is shown as the placeholder. *)
Theorem missing_field_placeholder upd fs tmpdir st audio resp track more :
  recognized w upd fs tmpdir st audio (inr (PDict resp)) ->
  dict_lookup "track" resp = Some (PDict track) ->
  track <> [] ->
  find_link py_format (dict_get track "sections") = Ok more ->
  exists title subtitle,
    replies (events py_format w upd fs)
      = [title_label ++ title ++ artist_label ++ subtitle ++ more] /\
    (dict_lookup "title" track = None -> title = placeholder) /\
    (dict_lookup "subtitle" track = None -> subtitle = placeholder).
Proof.
  intros Hrec Htrack Hne Hlink.
  destruct (recognized_run py_format _ _ _ _ _ _ _ Hrec) as (st' & Hrun & Hquiet).
  exists (py_format (py_or (dict_get track "title") (PStr placeholder))),
    (py_format (py_or (dict_get track "subtitle") (PStr placeholder))).
  split; [|split].
  - assert (Htruthy : truthy (PDict track) = true) by now destruct track.
    unfold events. rewrite Hrun, respond_run. cbn [answer_of track_of].
    unfold dict_get at 1 2. rewrite Htrack, Htruthy, track_reply_dict, Hlink.
    cbn [obind]. rewrite reply_text_run.
    cbn [close fst snd st_log]. rewrite !replies_app, Hquiet. reflexivity.
  - intros Hmiss. unfold dict_get. rewrite Hmiss. apply py_format_str.
  - intros Hmiss. unfold dict_get. rewrite Hmiss. apply py_format_str.
Qed.

(** C9.  A request that has made its temporary directory ends with that
    directory gone, and with it every file below it, however the body of
    the [with] block ends: the removal is the last event of the request. *)
Theorem temporary_directory_is_removed upd fs f hint d st :
  reached w upd fs (InTempDir f hint d) st ->
  dir_exists d (final_fs py_format w upd fs) = false /\
  (forall p, under d p = true ->
             file_exists p (final_fs py_format w upd fs) = false) /\
  exists log, events py_format w upd fs = (log ++ [EvCleanup d])%list.
Proof.
  intros Hreach. unfold final_fs, events.
  rewrite (reached_run py_format _ _ _ _ _ Hreach).
  cbn [remainder close snd st_fs st_log].
  split; [apply rmtree_dir | split; [intros p; apply rmtree_file | eauto]].
Qed.

(** C10.  An update without a message is returned from at once: nothing is
    logged, so no reply, no typing indicator and no stage call, and the
    state is the one the handler was entered with. *)
Theorem no_message_no_action st :
  handle_msg py_format w {| upd_message := None |} st = (Ok tt, st).
Proof. reflexivity. Qed.

End Claims.

(** * The concrete request, stage by stage *)

Lemma demo_reaches_tempdir dl proc answer :
  reached (studio dl proc answer) demo_update demo_fs
    (InTempDir demo_handle "voice_AgADxw.ogg" demo_tmpdir) demo_in_tempdir.
Proof.
  apply (reach_tempdir _ _ _ demo_handle "voice_AgADxw.ogg"
           {| st_fs := demo_fs; st_log := [EvGetFile Voice "AwACAgQ"] |}
           demo_tmpdir).
  - exact (reach_resolved (studio dl proc answer) demo_update demo_fs
             voice_message Voice demo_media demo_handle
             eq_refl eq_refl eq_refl).
  - reflexivity.
  - reflexivity.
Defined.

Lemma demo_reaches_recognition answer :
  reached (lab answer) demo_update demo_fs
    (Transcoded demo_tmpdir demo_out) demo_transcoded.
Proof.
  apply (reach_transcoded _ _ _ demo_tmpdir demo_in demo_out demo_downloaded).
  - apply (reach_downloaded _ _ _ demo_handle "voice_AgADxw.ogg" demo_tmpdir
             demo_in_tempdir).
    + apply demo_reaches_tempdir.
    + reflexivity.
  - reflexivity.
Defined.

Lemma demo_recognized answer :
  recognized (lab answer) demo_update demo_fs demo_tmpdir demo_transcoded
    demo_audio answer.
Proof.
  exists demo_out. split; [apply demo_reaches_recognition|].
  split; reflexivity.
Defined.

(** The two stubs of the specification: a converter that leaves an empty
    output file and exits with status 1, and one that exits with status 0
    and leaves nothing. *)
Example stub_with_file_and_bad_status :
  fst (convert_to_wav (studio (inr demo_raw) (inr (1%Z, [(demo_out, [])]))
                         (inl TypeError))
         demo_in demo_out demo_downloaded) = Ok true.
Proof. reflexivity. Qed.

Example stub_without_file_and_good_status :
  fst (convert_to_wav (studio (inr demo_raw) (inr (0%Z, [])) (inl TypeError))
         demo_in demo_out demo_downloaded) = Ok false.
Proof. reflexivity. Qed.

(** [Path.exists()] is as true of a directory: with one at the output path
    a converter that writes nothing still makes the stage report success. *)
Example stub_with_directory_at_output :
  fst (convert_to_wav (studio (inr demo_raw) (inr (1%Z, [])) (inl TypeError))
         demo_in demo_out
         {| st_fs := {| fs_dirs := [demo_out; demo_tmpdir; "/tmp"];
                        fs_files := [(demo_in, demo_raw)] |};
            st_log := [] |}) = Ok true.
Proof. reflexivity. Qed.

(** At the level of a request: the first stub goes on to recognition, the
    second one ends with the conversion-error reply. *)
Example stub_requests :
  replies (events show_scalar
             (studio (inr demo_raw) (inr (1%Z, [(demo_out, [])]))
                (inr (PDict [])))
             demo_update demo_fs) = [no_match] /\
  events show_scalar
    (studio (inr demo_raw) (inr (0%Z, [])) (inr (PDict [])))
    demo_update demo_fs
  = [EvGetFile Voice "AwACAgQ"; EvChatAction "typing"; EvMkdtemp demo_tmpdir;
     EvDownload demo_handle demo_in; EvSpawn (ffmpeg_cmd demo_in demo_out);
     EvReplyText convert_error; EvCleanup demo_tmpdir].
Proof. split; reflexivity. Qed.

(** A message with a video, a document and a video note: the video is the
    one that is fetched and downloaded. *)
Example crowded_message_takes_video :
  first_populated crowded_message = Some (Video, demo_media) /\
  fetched (events show_scalar (lab (inr (PDict [])))
             {| upd_message := Some crowded_message |} demo_fs)
  = [(Video, "AwACAgQ")] /\
  stage_calls (events show_scalar (lab (inr (PDict [])))
                 {| upd_message := Some crowded_message |} demo_fs)
  = [EvDownload demo_handle "/tmp/tmpk3x/video_AgADxw.mp4";
     EvSpawn (ffmpeg_cmd "/tmp/tmpk3x/video_AgADxw.mp4" demo_out);
     EvRead demo_out; EvRecognize demo_audio].
Proof. repeat split; reflexivity. Qed.

(** The three ways of coming back without a track, run side by side. *)
Example three_ways_one_reply :
  replies (events show_scalar (lab (inl (ExternalError "timeout")))
             demo_update demo_fs) = [no_match] /\
  replies (events show_scalar (lab (inr (PDict []))) demo_update demo_fs)
    = [no_match] /\
  replies (events show_scalar (lab (answer_with PNone)) demo_update demo_fs)
    = [no_match].
Proof. repeat split; reflexivity. Qed.

(** C3.  The formatter does have a failure mode.  For a track whose
    youtube provider has an empty list of actions, [[0]] on line 86 raises
    [IndexError]: the formatter produces no text, the request sends no reply
    and the exception leaves the handler. *)
Theorem formatter_raises_on_empty_actions :
  track_reply show_scalar (PDict actionless_track) = Raise IndexError /\
  fst (run_request show_scalar (lab (answer_with (PDict actionless_track)))
         demo_update demo_fs) = Raise IndexError /\
  replies (events show_scalar (lab (answer_with (PDict actionless_track)))
             demo_update demo_fs) = [].
Proof. repeat split; reflexivity. Qed.

(** Other shapes the formatter trips over: a section, a provider or a first
    action that is not a record, and providers that cannot be iterated. *)
Example formatter_raises_on_odd_shapes :
  track_reply show_scalar (PDict [("sections", PList [PInt 1])])
    = Raise AttributeError /\
  track_reply show_scalar
    (PDict [("sections",
             PList [PDict [("hub", PDict [("providers", PList [PNone])])]])])
    = Raise AttributeError /\
  track_reply show_scalar
    (PDict [("sections",
             PList [PDict [("hub", PDict [("providers", PInt 7)])]])])
    = Raise TypeError /\
  track_reply show_scalar
    (PDict [("sections",
             PList [PDict [("hub",
                      PDict [("providers",
                              PList [PDict [("type", PStr "youtube");
                                            ("actions", PNone)]])])]])])
    = Raise TypeError.
Proof. repeat split; reflexivity. Qed.

(** C8, as stated, fails for the empty track record: the answer contains a
    track, its title is missing, and the reply is the no-match text, in
    which the placeholder does not occur. *)
Lemma empty_track_gets_no_match :
  recognized (lab (answer_with (PDict []))) demo_update demo_fs demo_tmpdir
    demo_transcoded demo_audio (inr (PDict [("track", PDict [])])) /\
  dict_lookup "track" [("track", PDict [])] = Some (PDict []) /\
  dict_lookup "title" [] = None /\
  replies (events show_scalar (lab (answer_with (PDict []))) demo_update
             demo_fs) = [no_match] /\
  occurs placeholder no_match = false.
Proof.
  split; [apply demo_recognized|]. repeat split; reflexivity.
Qed.

(** * The theorems at the concrete request *)

Lemma show_scalar_str : forall s, show_scalar (PStr s) = s.
Proof. reflexivity. Defined.

(** C2 at a request whose engine call times out. *)
Lemma recognition_failure_is_no_match_witness :
  reached (lab (inl (ExternalError "timeout"))) demo_update demo_fs
    (Transcoded demo_tmpdir demo_out) demo_transcoded /\
  exists audio st',
    read_path demo_out (fs_files (st_fs demo_transcoded)) = Some audio /\
    recognize_with_shazam (lab (inl (ExternalError "timeout"))) demo_out
      demo_transcoded
      = (Ok (answer_of (w_shazam (lab (inl (ExternalError "timeout"))) audio)),
         st') /\
    run_request show_scalar (lab (inl (ExternalError "timeout"))) demo_update
      demo_fs
      = close demo_tmpdir
          (respond show_scalar (lab (inl (ExternalError "timeout")))
             (answer_of (w_shazam (lab (inl (ExternalError "timeout"))) audio))
             st') /\
    (no_result (w_shazam (lab (inl (ExternalError "timeout"))) audio) = true ->
     replies (events show_scalar (lab (inl (ExternalError "timeout")))
                demo_update demo_fs) = [no_match] /\
     fst (run_request show_scalar (lab (inl (ExternalError "timeout")))
            demo_update demo_fs)
       = sent (lab (inl (ExternalError "timeout"))) no_match).
Proof.
  split; [apply demo_reaches_recognition|].
  apply (recognition_failure_is_no_match show_scalar
           (lab (inl (ExternalError "timeout"))) demo_update demo_fs
           demo_tmpdir demo_out demo_transcoded).
  apply demo_reaches_recognition.
Defined.

(** C5 at the track with two links: the first one is shown. *)
Lemma first_link_is_appended_witness :
  replies (events show_scalar (lab (answer_with (PDict linked_track)))
             demo_update demo_fs)
  = [title_label ++ "X" ++ artist_label ++ "Y" ++ link_label
       ++ "http://example/u"].
Proof.
  refine (proj1 (first_link_is_appended show_scalar
                   (lab (answer_with (PDict linked_track))) show_scalar_str
                   demo_update demo_fs demo_tmpdir demo_transcoded demo_audio
                   [("track", PDict linked_track)] linked_track "X" "Y"
                   linked_sections "http://example/u"
                   (demo_recognized _) eq_refl eq_refl eq_refl eq_refl _)).
  exists [PDict [("type", PStr "SONG")]]. do 3 eexists.
  split; [reflexivity|]. split; [reflexivity|]. split; [reflexivity|].
  exists [PDict [("type", PStr "spotify")]]. do 4 eexists.
  repeat split; reflexivity.
Defined.

(** C6 at the message without attachments. *)
Lemma no_attachment_prompts_witness :
  events show_scalar (lab (inl TypeError))
    {| upd_message := Some empty_message |} demo_fs
    = [EvReplyText usage_prompt] /\
  stage_calls (events show_scalar (lab (inl TypeError))
                 {| upd_message := Some empty_message |} demo_fs) = [] /\
  final_fs show_scalar (lab (inl TypeError))
    {| upd_message := Some empty_message |} demo_fs = demo_fs.
Proof.
  apply (no_attachment_prompts show_scalar (lab (inl TypeError))
           empty_message demo_fs).
  intros k; destruct k; reflexivity.
Defined.

(** C7 at a request whose download times out. *)
Lemma download_failure_aborts_witness :
  let w := studio (inl (ExternalError "timed out")) (inl FileNotFoundError)
             (inl TypeError) in
  replies (events show_scalar w demo_update demo_fs) = [download_error] /\
  stage_calls (events show_scalar w demo_update demo_fs)
    = [EvDownload demo_handle demo_in] /\
  fst (run_request show_scalar w demo_update demo_fs) = Ok tt.
Proof.
  intros w.
  apply (download_failure_aborts show_scalar w demo_update demo_fs demo_handle
           "voice_AgADxw.ogg" demo_tmpdir demo_in_tempdir
           (ExternalError "timed out")).
  - apply demo_reaches_tempdir.
  - reflexivity.
Defined.

(** C8 at the track that has an artist and no title. *)
Lemma missing_field_placeholder_witness :
  exists title subtitle,
    replies (events show_scalar (lab (answer_with (PDict untitled_track)))
               demo_update demo_fs)
      = [title_label ++ title ++ artist_label ++ subtitle ++ ""] /\
    (dict_lookup "title" untitled_track = None -> title = placeholder) /\
    (dict_lookup "subtitle" untitled_track = None -> subtitle = placeholder).
Proof.
  apply (missing_field_placeholder show_scalar
           (lab (answer_with (PDict untitled_track))) show_scalar_str
           demo_update demo_fs demo_tmpdir demo_transcoded demo_audio
           [("track", PDict untitled_track)] untitled_track "").
  - apply demo_recognized.
  - reflexivity.
  - discriminate.
  - reflexivity.
Defined.

(** C9 at a request whose formatter raises inside the [with] block. *)
Lemma temporary_directory_is_removed_witness :
  let w := lab (answer_with (PDict actionless_track)) in
  fst (run_request show_scalar w demo_update demo_fs) = Raise IndexError /\
  dir_exists demo_tmpdir (final_fs show_scalar w demo_update demo_fs) = false /\
  (forall p, under demo_tmpdir p = true ->
             file_exists p (final_fs show_scalar w demo_update demo_fs) = false) /\
  exists log,
    events show_scalar w demo_update demo_fs = (log ++ [EvCleanup demo_tmpdir])%list.
Proof.
  intros w. split; [reflexivity|].
  apply (temporary_directory_is_removed show_scalar w demo_update demo_fs
           demo_handle "voice_AgADxw.ogg" demo_tmpdir demo_in_tempdir).
  apply demo_reaches_tempdir.
Defined.

(** * The file system, through a request *)

Lemma filter_filter_implied {A} (P Q : A -> bool) l :
  (forall x, P x = true -> Q x = true) ->
  filter P (filter Q l) = filter P l.
Proof.
  intros H. induction l as [|x l IH]; [reflexivity|].
  cbn. destruct (Q x) eqn:Hq; cbn.
  - now rewrite IH.
  - destruct (P x) eqn:Hp; [|exact IH].
    apply H in Hp. congruence.
Qed.

Lemma rmtree_mkdir d fs : rmtree d (mkdir d fs) = rmtree d fs.
Proof. unfold rmtree, mkdir; cbn. now rewrite under_self. Qed.

Lemma rmtree_write_file d p b fs :
  under d p = true -> rmtree d (write_file p b fs) = rmtree d fs.
Proof.
  intros Hp. unfold rmtree, write_file, write_path; cbn. rewrite Hp; cbn.
  f_equal. apply filter_filter_implied.
  intros [q c]; cbn. intros Hq%negb_true_iff.
  apply negb_true_iff. destruct (q =? p) eqn:E; [|reflexivity].
  apply String.eqb_eq in E. congruence.
Qed.

Lemma rmtree_write_files d ws fs :
  forallb (fun pb => under d (fst pb)) ws = true ->
  rmtree d (write_files ws fs) = rmtree d fs.
Proof.
  revert fs. induction ws as [|[p b] ws IH]; intros fs; [reflexivity|].
  cbn [forallb fst]. intros [Hp Hws]%andb_true_iff.
  unfold write_files in *. cbn [fold_left fst snd].
  now rewrite (IH _ Hws), (rmtree_write_file _ _ _ _ Hp).
Qed.

Lemma read_path_other p q files :
  (q =? p) = false ->
  read_path p (filter (fun qb => negb (fst qb =? q)) files)
  = read_path p files.
Proof.
  intros Hne. induction files as [|[r c] files IH]; [reflexivity|].
  cbn. destruct (r =? q) eqn:Hrq; cbn.
  - apply String.eqb_eq in Hrq. subst r. now rewrite Hne.
  - destruct (r =? p); [reflexivity | exact IH].
Qed.

Lemma read_write_file p q b fs :
  read_path p (fs_files (write_file q b fs))
  = if q =? p then Some b else read_path p (fs_files fs).
Proof.
  unfold write_file, write_path; cbn.
  destruct (q =? p) eqn:E; [reflexivity|]. now apply read_path_other.
Qed.

Lemma file_exists_write_file p q b fs :
  file_exists p fs = true -> file_exists p (write_file q b fs) = true.
Proof.
  unfold file_exists. rewrite read_write_file. now destruct (q =? p).
Qed.

Lemma file_exists_write_files p ws fs :
  file_exists p fs = true -> file_exists p (write_files ws fs) = true.
Proof.
  revert fs. induction ws as [|[q b] ws IH]; intros fs H; [exact H|].
  unfold write_files in *. cbn [fold_left fst snd].
  now apply IH, file_exists_write_file.
Qed.

Lemma rmtree_keeps_outside d p fs :
  under d p = false -> file_exists p (rmtree d fs) = file_exists p fs.
Proof.
  intros Hp. unfold file_exists, rmtree; cbn [fs_files].
  induction (fs_files fs) as [|[q b] files IH]; [reflexivity|].
  cbn [filter fst read_path].
  destruct (q =? p) eqn:Hqp.
  - apply String.eqb_eq in Hqp. subst q. rewrite Hp. cbn. now rewrite String.eqb_refl.
  - destruct (under d q); cbn; rewrite ?Hqp; exact IH.
Qed.

Lemma rmtree_fresh d fs : fresh_in d fs = true -> rmtree d fs = fs.
Proof.
  unfold fresh_in. intros [Hd Hf]%andb_true_iff.
  destruct fs as [dirs files]. unfold rmtree; cbn in *.
  now rewrite (forallb_filter_id _ _ Hd), (forallb_filter_id _ _ Hf).
Qed.

(** * The whole handler *)

Section Handler.

Variable py_format : pyval -> string.
Variable w : world.

Lemma stage_calls_app a b :
  stage_calls (a ++ b) = (stage_calls a ++ stage_calls b)%list.
Proof. apply filter_app. Qed.

(** The log at each stage. *)
Lemma reached_log upd fs s st :
  reached w upd fs s st ->
  exists k id,
    match s with
    | Resolved _ _ => st_log st = [EvGetFile k id]
    | InTempDir _ _ d =>
        st_log st = [EvGetFile k id; EvChatAction "typing"; EvMkdtemp d]
    | Downloaded d i o =>
        exists f,
          st_log st = [EvGetFile k id; EvChatAction "typing"; EvMkdtemp d;
                       EvDownload f i]
    | Transcoded d o =>
        exists f i,
          st_log st = [EvGetFile k id; EvChatAction "typing"; EvMkdtemp d;
                       EvDownload f i; EvSpawn (ffmpeg_cmd i o)]
    end.
Proof.
  induction 1 as [msg k m f Hmsg Hfirst Hget
                 | f hint st d _ IH Hsend Hmk
                 | f hint d st st' _ IH Hdl
                 | d i o st st' _ IH Hconv].
  - exists k, (file_id m). reflexivity.
  - destruct IH as (k & id & Hlog). exists k, id. cbn. now rewrite Hlog.
  - destruct IH as (k & id & Hlog). exists k, id, f.
    revert Hdl. unfold download_to_drive, bind, emit, get_fs, set_fs, of_sum,
      ret, raise; cbn.
    destruct (w_download w f (path_join d hint)); cbn; [discriminate|].
    intros [= <-]; cbn. now rewrite Hlog.
  - destruct IH as (k & id & f & Hlog). exists k, id, f, i.
    rewrite convert_to_wav_run in Hconv.
    destruct (w_exec w (ffmpeg_cmd i o) (st_fs st)); [discriminate|].
    injection Hconv as _ <-. cbn. now rewrite Hlog.
Qed.

(** The file system at the start of the [with] block's body. *)
Lemma reached_tempdir_fs upd fs f hint d st :
  reached w upd fs (InTempDir f hint d) st -> st_fs st = mkdir d fs.
Proof.
  inversion 1 as [ | f' hint' st0 d' Hres _ _ | | ]; subst.
  inversion Hres; subst. reflexivity.
Qed.

Lemma reached_resolved_state upd fs f hint st :
  reached w upd fs (Resolved f hint) st ->
  exists k id, st = {| st_fs := fs; st_log := [EvGetFile k id] |}.
Proof. inversion 1; subst. eauto. Qed.

(** Every request ends in one of the eight ways. *)
Lemma every_request_ends upd fs : ending w upd fs.
Proof.
  destruct (upd_message upd) as [msg|] eqn:Hmsg; [|now apply NoMessage].
  destruct (first_populated msg) as [[k m]|] eqn:Hfirst;
    [|now apply (NoAttachment _ _ _ msg)].
  destruct (w_get_file w k m) as [e|f] eqn:Hget;
    [now apply (GetFileRaised _ _ _ msg k m e)|].
  pose proof (reach_resolved w upd fs msg k m f Hmsg Hfirst Hget) as Hres.
  destruct (w_send w (EvChatAction "typing")) as [e|] eqn:Hsend;
    [now apply (TypingRaised _ _ _ _ _ _ e Hres)|].
  destruct (w_mkdtemp w fs) as [e|d] eqn:Hmk;
    [now apply (MkdtempRaised _ _ _ _ _ _ e Hres)|].
  pose proof (reach_tempdir w upd fs _ _ _ d Hres Hsend Hmk) as Htmp.
  destruct (w_download w f (path_join d (hint_of k m))) as [e|data] eqn:Hdl;
    [now apply (DownloadRaised _ _ _ _ _ _ _ e Htmp)|].
  match type of Htmp with reached _ _ _ _ ?s =>
    assert (Hdown : exists st', download_to_drive w f
                       (path_join d (hint_of k m)) s = (Ok tt, st'))
  end.
  { unfold download_to_drive, bind, emit, get_fs, set_fs, of_sum, ret; cbn.
    rewrite Hdl. eauto. }
  destruct Hdown as (st1 & Hdown).
  pose proof (reach_downloaded w upd fs _ _ _ _ _ Htmp Hdown) as Hd.
  destruct (convert_to_wav w (path_join d (hint_of k m))
              (path_join d "converted.wav") st1) as [r st2] eqn:Hconv.
  pose proof Hconv as Hconv'. rewrite convert_to_wav_run in Hconv'.
  destruct (w_exec w _ (st_fs st1)) as [e|res].
  - injection Hconv' as <- _. exact (ConvertFailed _ _ _ _ _ _ _ _ Hd Hconv).
  - injection Hconv' as <- _.
    destruct (exists_at _ _).
    + exact (Responded _ _ _ _ _ _ (reach_transcoded _ _ _ _ _ _ _ _ Hd Hconv)).
    + exact (ConvertFailed _ _ _ _ _ _ _ _ Hd Hconv).
Qed.

(** The run of a request, ending by ending. *)

Lemma run_no_message upd fs :
  upd_message upd = None ->
  run_request py_format w upd fs = (Ok tt, {| st_fs := fs; st_log := [] |}).
Proof. intros H. unfold run_request, handle_msg. now rewrite H. Qed.

Lemma run_no_attachment upd fs msg :
  upd_message upd = Some msg ->
  first_populated msg = None ->
  run_request py_format w upd fs
  = (sent w usage_prompt,
     {| st_fs := fs; st_log := [EvReplyText usage_prompt] |}).
Proof.
  intros Hmsg Hfirst. unfold run_request, handle_msg.
  rewrite Hmsg, resolve_first_populated, Hfirst.
  unfold bind. rewrite reply_text_run.
  unfold sent. destruct (w_send w (EvReplyText usage_prompt)); reflexivity.
Qed.

Lemma run_get_file_raised upd fs msg k m e :
  upd_message upd = Some msg ->
  first_populated msg = Some (k, m) ->
  w_get_file w k m = inl e ->
  run_request py_format w upd fs
  = (Raise e, {| st_fs := fs; st_log := [EvGetFile k (file_id m)] |}).
Proof.
  intros Hmsg Hfirst Hget. unfold run_request, handle_msg.
  rewrite Hmsg, resolve_first_populated, Hfirst.
  unfold bind, get_file, emit, of_sum; cbn. now rewrite Hget.
Qed.

Lemma run_typing_raised upd fs f hint st e :
  reached w upd fs (Resolved f hint) st ->
  w_send w (EvChatAction "typing") = Some e ->
  run_request py_format w upd fs
  = (Raise e,
     {| st_fs := st_fs st; st_log := st_log st ++ [EvChatAction "typing"] |}).
Proof.
  intros Hreach Hsend. rewrite (reached_run py_format _ _ _ _ _ Hreach).
  cbn [remainder]. unfold bind, reply_chat_action, send, emit; cbn.
  now rewrite Hsend.
Qed.

Lemma run_mkdtemp_raised upd fs f hint st e :
  reached w upd fs (Resolved f hint) st ->
  w_send w (EvChatAction "typing") = None ->
  w_mkdtemp w (st_fs st) = inl e ->
  run_request py_format w upd fs
  = (Raise e,
     {| st_fs := st_fs st; st_log := st_log st ++ [EvChatAction "typing"] |}).
Proof.
  intros Hreach Hsend Hmk. rewrite (reached_run py_format _ _ _ _ _ Hreach).
  cbn [remainder]. unfold bind, reply_chat_action, send, emit; cbn.
  rewrite Hsend. unfold ret, with_TemporaryDirectory; cbn. now rewrite Hmk.
Qed.

Lemma run_download_raised upd fs f hint d st e :
  reached w upd fs (InTempDir f hint d) st ->
  w_download w f (path_join d hint) = inl e ->
  run_request py_format w upd fs
  = close d
      (sent w download_error,
       {| st_fs := st_fs st;
          st_log := st_log st ++ EvDownload f (path_join d hint)
                      :: EvReplyText download_error
                      :: match sent w download_error with
                         | Ok _ => [EvPrint "download error:" e]
                         | Raise _ => []
                         end |}).
Proof.
  intros Hreach Hdl. rewrite (reached_run py_format _ _ _ _ _ Hreach).
  cbn [remainder]. now rewrite (process_download_failure _ _ _ _ _ _ _ Hdl).
Qed.

Lemma run_convert_failed upd fs d i o st st' :
  reached w upd fs (Downloaded d i o) st ->
  convert_to_wav w i o st = (Ok false, st') ->
  run_request py_format w upd fs
  = close d
      (sent w convert_error,
       {| st_fs := st_fs st';
          st_log := st_log st' ++ [EvReplyText convert_error] |}).
Proof.
  intros Hreach Hconv. rewrite (reached_run py_format _ _ _ _ _ Hreach).
  cbn [remainder]. unfold bind at 1. rewrite Hconv. cbn [negb].
  unfold bind. rewrite reply_text_run.
  unfold sent. destruct (w_send w (EvReplyText convert_error)); reflexivity.
Qed.

Lemma run_transcoded upd fs d o st :
  reached w upd fs (Transcoded d o) st ->
  exists audio,
    read_path o (fs_files (st_fs st)) = Some audio /\
    run_request py_format w upd fs
    = close d
        (respond py_format w (answer_of (w_shazam w audio))
           {| st_fs := st_fs st;
              st_log := st_log st ++ EvRead o :: EvRecognize audio ::
                        match w_shazam w audio with
                        | inl e => [EvPrint "shazam recognition error:" e]
                        | inr _ => []
                        end |}).
Proof.
  intros Hreach.
  pose proof (transcoded_exists _ _ _ _ _ _ Hreach) as Hex.
  unfold file_exists in Hex.
  destruct (read_path o (fs_files (st_fs st))) as [audio|] eqn:Hread;
    [clear Hex | discriminate].
  exists audio. split; [reflexivity|].
  rewrite (reached_run py_format _ _ _ _ _ Hreach). cbn [remainder].
  unfold bind at 1. now rewrite (recognize_with_shazam_run _ _ _ _ Hread).
Qed.

(** The formatter stage sends one reply or raises before sending. *)
Lemma respond_shape result st :
  (exists text,
     respond py_format w result st
     = (sent w text,
        {| st_fs := st_fs st; st_log := st_log st ++ [EvReplyText text] |})) \/
  (exists e,
     track_reply py_format (track_of result) = Raise e /\
     respond py_format w result st = (Raise e, st)).
Proof.
  rewrite respond_run.
  destruct (truthy (track_of result)).
  - destruct (track_reply py_format (track_of result)) as [reply|e].
    + left. exists reply. apply reply_text_run.
    + right. eauto.
  - left. exists no_match. apply reply_text_run.
Qed.

(** A log that ends with the events of a stage. *)
Lemma prints_quiet (r : pyexn + pyval) (what : string) :
  replies match r with inl e => [EvPrint what e] | inr _ => [] end = [] /\
  stage_calls match r with inl e => [EvPrint what e] | inr _ => [] end = [].
Proof. destruct r; split; reflexivity. Qed.

Lemma convert_log i o st r st' :
  convert_to_wav w i o st = (r, st') ->
  exists evs,
    st_log st' = (st_log st ++ evs)%list /\
    replies evs = [] /\ stage_calls evs = [EvSpawn (ffmpeg_cmd i o)].
Proof.
  rewrite convert_to_wav_run.
  destruct (w_exec w (ffmpeg_cmd i o) (st_fs st)) as [e|res];
    intros [= _ <-]; cbn; eauto.
Qed.


Lemma sent_ok_or_raise text :
  sent w text = Ok tt \/ exists e, sent w text = Raise e.
Proof. unfold sent. destruct (w_send w (EvReplyText text)); eauto. Qed.

(** X1.  A request sends at most one reply, and a request for an update
    with a message that the handler returns from normally has sent exactly
    one. *)
Theorem one_reply_per_request upd fs :
  length (replies (events py_format w upd fs)) <= 1 /\
  (upd_message upd <> None ->
   fst (run_request py_format w upd fs) = Ok tt ->
   exists text, replies (events py_format w upd fs) = [text]).
Proof.
  unfold events.
  destruct (every_request_ends upd fs)
    as [Hmsg | msg Hmsg Hfirst | msg k m e Hmsg Hfirst Hget
        | f hint st e Hreach Hsend | f hint st e Hreach Hsend Hmk
        | f hint d st e Hreach Hdl | d i o st st' Hreach Hconv
        | d o st Hreach].
  - rewrite (run_no_message _ _ Hmsg). cbn. split; [lia | congruence].
  - rewrite (run_no_attachment _ _ _ Hmsg Hfirst). cbn. split; eauto.
  - rewrite (run_get_file_raised _ _ _ _ _ _ Hmsg Hfirst Hget). cbn.
    split; [lia | discriminate].
  - rewrite (run_typing_raised _ _ _ _ _ _ Hreach Hsend). cbn.
    rewrite replies_app, (reached_quiet _ _ _ _ _ Hreach). cbn.
    split; [lia | discriminate].
  - rewrite (run_mkdtemp_raised _ _ _ _ _ _ Hreach Hsend Hmk). cbn.
    rewrite replies_app, (reached_quiet _ _ _ _ _ Hreach). cbn.
    split; [lia | discriminate].
  - rewrite (run_download_raised _ _ _ _ _ _ _ Hreach Hdl). cbn.
    rewrite !replies_app, (reached_quiet _ _ _ _ _ Hreach). cbn.
    destruct (sent w download_error); cbn; split; eauto.
  - rewrite (run_convert_failed _ _ _ _ _ _ _ Hreach Hconv). cbn.
    destruct (convert_log _ _ _ _ _ Hconv) as (evs & -> & Hq & _).
    rewrite !replies_app, (reached_quiet _ _ _ _ _ Hreach), Hq. cbn.
    split; eauto.
  - destruct (run_transcoded _ _ _ _ _ Hreach) as (audio & _ & ->).
    match goal with |- context [respond _ _ ?r ?s] =>
      destruct (respond_shape r s) as [(text & ->) | (e & _ & ->)]
    end; cbn; rewrite !replies_app, (reached_quiet _ _ _ _ _ Hreach); cbn;
      rewrite ?replies_app, (proj1 (prints_quiet _ _)); cbn.
    + split; eauto.
    + split; [lia | discriminate].
Qed.

Lemma stage_calls_prints (r : pyexn + pyval) what :
  stage_calls match r with inl e => [EvPrint what e] | inr _ => [] end = [].
Proof. destruct r; reflexivity. Qed.

(** X2.  Whatever the world does, the download, transcode and
    recognition calls of a request are an initial part of: one download,
    one [ffmpeg] process on the downloaded path, one read of the converted
    file, one engine call.  The read is always followed by the engine
    call. *)
Theorem stages_run_in_order upd fs :
  stage_shape (stage_calls (events py_format w upd fs)).
Proof.
  unfold events, stage_shape.
  destruct (every_request_ends upd fs)
    as [Hmsg | msg Hmsg Hfirst | msg k m e Hmsg Hfirst Hget
        | f hint st e Hreach Hsend | f hint st e Hreach Hsend Hmk
        | f hint d st e Hreach Hdl | d i o st st' Hreach Hconv
        | d o st Hreach].
  - rewrite (run_no_message _ _ Hmsg). now left.
  - rewrite (run_no_attachment _ _ _ Hmsg Hfirst). now left.
  - rewrite (run_get_file_raised _ _ _ _ _ _ Hmsg Hfirst Hget). now left.
  - rewrite (run_typing_raised _ _ _ _ _ _ Hreach Hsend).
    destruct (reached_log _ _ _ _ Hreach) as (k & id & Hlog). cbn.
    rewrite Hlog. now left.
  - rewrite (run_mkdtemp_raised _ _ _ _ _ _ Hreach Hsend Hmk).
    destruct (reached_log _ _ _ _ Hreach) as (k & id & Hlog). cbn.
    rewrite Hlog. now left.
  - rewrite (run_download_raised _ _ _ _ _ _ _ Hreach Hdl).
    destruct (reached_log _ _ _ _ Hreach) as (k & id & Hlog). cbn.
    rewrite Hlog. right; left. exists f, (path_join d hint).
    destruct (sent w download_error); reflexivity.
  - rewrite (run_convert_failed _ _ _ _ _ _ _ Hreach Hconv).
    destruct (reached_log _ _ _ _ Hreach) as (k & id & f & Hlog).
    destruct (convert_log _ _ _ _ _ Hconv) as (evs & Hlog' & _ & Hcalls).
    cbn. rewrite Hlog', Hlog, !stage_calls_app, Hcalls.
    right; right; left. exists f, i, o. reflexivity.
  - destruct (run_transcoded _ _ _ _ _ Hreach) as (audio & _ & ->).
    destruct (reached_log _ _ _ _ Hreach) as (k & id & f & i & Hlog).
    right; right; right. exists f, i, o, audio.
    match goal with |- context [respond _ _ ?r ?s] =>
      destruct (respond_shape r s) as [(text & ->) | (e & _ & ->)]
    end; cbn; rewrite Hlog, !stage_calls_app; cbn;
      rewrite ?stage_calls_app, stage_calls_prints; reflexivity.
Qed.


(** X4.  When the transcode stage reports failure, the one reply is the
    conversion-error text, the converted file is neither read nor sent to
    the engine, and the request ends as the sending of that reply ends. *)
Theorem transcode_failure_aborts upd fs d i o st :
  reached w upd fs (Downloaded d i o) st ->
  fst (convert_to_wav w i o st) = Ok false ->
  replies (events py_format w upd fs) = [convert_error] /\
  (exists f, stage_calls (events py_format w upd fs)
             = [EvDownload f i; EvSpawn (ffmpeg_cmd i o)]) /\
  fst (run_request py_format w upd fs) = sent w convert_error.
Proof.
  intros Hreach Hfail.
  destruct (convert_to_wav w i o st) as [r st'] eqn:Hconv.
  cbn in Hfail. subst r.
  unfold events. rewrite (run_convert_failed _ _ _ _ _ _ _ Hreach Hconv).
  destruct (reached_log _ _ _ _ Hreach) as (k & id & f & Hlog).
  destruct (convert_log _ _ _ _ _ Hconv) as (evs & Hlog' & Hq & Hcalls).
  cbn. rewrite Hlog', Hlog, !replies_app, !stage_calls_app, Hq, Hcalls.
  split; [reflexivity | split; [exists f|]; reflexivity].
Qed.

End Handler.

(** * What a request does to the file system *)

Section Files.

Variable py_format : pyval -> string.
Variable w : world.

Lemma respond_fs result st :
  st_fs (snd (respond py_format w result st)) = st_fs st.
Proof.
  destruct (respond_shape py_format w result st)
    as [(text & ->) | (e & _ & ->)]; reflexivity.
Qed.

Lemma recognize_with_shazam_fs o st :
  st_fs (snd (recognize_with_shazam w o st)) = st_fs st.
Proof.
  unfold recognize_with_shazam, read_file, recognize_song, try_, bind, emit,
    get_fs, print, emit, of_sum, ret, raise; cbn.
  destruct (read_path o (fs_files (st_fs st))); cbn.
  - destruct (w_shazam w b); reflexivity.
  - destruct (dir_exists o (st_fs st)); reflexivity.
Qed.

Lemma download_to_drive_run f p st :
  download_to_drive w f p st =
  match w_download w f p with
  | inl e =>
      (Raise e,
       {| st_fs := st_fs st; st_log := st_log st ++ [EvDownload f p] |})
  | inr data =>
      (Ok tt,
       {| st_fs := write_file p data (st_fs st);
          st_log := st_log st ++ [EvDownload f p] |})
  end.
Proof.
  unfold download_to_drive, bind, emit, get_fs, set_fs, of_sum, ret, raise;
    cbn.
  destruct (w_download w f p); reflexivity.
Qed.

(** The body of the [with] block touches the file system through the
    download and the subprocess only. *)
Lemma process_fs f hint d st :
  st_fs (snd (process py_format w f hint d st))
  = fs_after_process w f hint d (st_fs st).
Proof.
  unfold fs_after_process.
  destruct (w_download w f (path_join d hint)) as [e|data] eqn:Hdl.
  - now rewrite (process_download_failure _ _ _ _ _ _ _ Hdl).
  - unfold process. unfold bind at 1. unfold try_.
    rewrite download_to_drive_run, Hdl.
    unfold bind at 1. rewrite convert_to_wav_run. cbn [st_fs].
    destruct (w_exec w _ (write_file (path_join d hint) data (st_fs st)))
      as [e|r]; cbn [negb].
    + unfold bind. rewrite reply_text_run.
      now destruct (sent w convert_error).
    + destruct (exists_at _ _); cbn [negb].
      * unfold bind at 1.
        match goal with |- context [recognize_with_shazam w ?o ?s] =>
          pose proof (recognize_with_shazam_fs o s) as Hfs;
          destruct (recognize_with_shazam w o s) as [[v|e] s']
        end; cbn [snd] in Hfs; cbn beta iota; [rewrite respond_fs|];
          exact Hfs.
      * unfold bind. rewrite reply_text_run.
        now destruct (sent w convert_error).
Qed.

Lemma final_fs_in_tempdir upd fs f hint d st :
  reached w upd fs (InTempDir f hint d) st ->
  final_fs py_format w upd fs
  = rmtree d (fs_after_process w f hint d (mkdir d fs)).
Proof.
  intros Hreach. unfold final_fs.
  rewrite (reached_run py_format _ _ _ _ _ Hreach). cbn [remainder close snd st_fs].
  now rewrite process_fs, (reached_tempdir_fs _ _ _ _ _ _ _ Hreach).
Qed.

(** X5.  A request leaves the file system as it was, or it has entered
    its temporary directory and leaves the file system it started with,
    with the download and the files of the subprocess written and then the
    temporary directory removed. *)
Theorem file_system_effect upd fs :
  final_fs py_format w upd fs = fs \/
  exists f hint d st,
    reached w upd fs (InTempDir f hint d) st /\
    final_fs py_format w upd fs
    = rmtree d (fs_after_process w f hint d (mkdir d fs)).
Proof.
  destruct (every_request_ends w upd fs)
    as [Hmsg | msg Hmsg Hfirst | msg k m e Hmsg Hfirst Hget
        | f hint st e Hreach Hsend | f hint st e Hreach Hsend Hmk
        | f hint d st e Hreach Hdl | d i o st st' Hreach Hconv
        | d o st Hreach].
  - left. unfold final_fs. now rewrite (run_no_message _ _ _ _ Hmsg).
  - left. unfold final_fs. now rewrite (run_no_attachment _ _ _ _ _ Hmsg Hfirst).
  - left. unfold final_fs.
    now rewrite (run_get_file_raised _ _ _ _ _ _ _ _ Hmsg Hfirst Hget).
  - left. unfold final_fs.
    rewrite (run_typing_raised _ _ _ _ _ _ _ _ Hreach Hsend).
    destruct (reached_resolved_state _ _ _ _ _ _ Hreach) as (k & id & ->).
    reflexivity.
  - left. unfold final_fs.
    rewrite (run_mkdtemp_raised _ _ _ _ _ _ _ _ Hreach Hsend Hmk).
    destruct (reached_resolved_state _ _ _ _ _ _ Hreach) as (k & id & ->).
    reflexivity.
  - right. exists f, hint, d, st. split; [exact Hreach|].
    now apply final_fs_in_tempdir with (st := st).
  - right. inversion Hreach as [ | | f hint d' st0 st1 Htmp Hdl | ]; subst.
    exists f, hint, d, st0. split; [exact Htmp|].
    now apply final_fs_in_tempdir with (st := st0).
  - right. inversion Hreach as [ | | | d' i o' st0 st1 Hd Hconv]; subst.
    inversion Hd as [ | | f hint d' st00 st1 Htmp Hdl | ]; subst.
    exists f, hint, d, st00. split; [exact Htmp|].
    now apply final_fs_in_tempdir with (st := st00).
Qed.

(** X6.  When the path the download goes to leads into the temporary
    directory and the subprocess writes inside the temporary directory
    only, the request leaves nothing behind: the file system at the end is
    the one the request started with. *)
Theorem no_files_left_behind upd fs f hint d st :
  reached w upd fs (InTempDir f hint d) st ->
  under d (path_join d hint) = true ->
  writes_inside w d ->
  final_fs py_format w upd fs = fs.
Proof.
  intros Hreach Hunder Hin.
  destruct (reached_place _ _ _ _ _ Hreach) as [_ Hfresh].
  rewrite (final_fs_in_tempdir _ _ _ _ _ _ Hreach).
  rewrite <- (rmtree_fresh _ _ Hfresh) at 2.
  unfold fs_after_process.
  destruct (w_download w f (path_join d hint)) as [e|data];
    [apply rmtree_mkdir|].
  destruct (w_exec w _ _) as [e|r] eqn:Hexec.
  - now rewrite rmtree_write_file, rmtree_mkdir.
  - rewrite (rmtree_write_files _ _ _ (Hin _ _ _ Hexec)).
    now rewrite rmtree_write_file, rmtree_mkdir.
Qed.

(** X7.  When the file name of the attachment is an absolute path outside
    the temporary directory, the download is written to that path and is
    still there when the request is over. *)
Theorem absolute_name_escapes upd fs f hint d st data :
  reached w upd fs (InTempDir f hint d) st ->
  prefix "/" hint = true ->
  under d hint = false ->
  w_download w f hint = inr data ->
  file_exists hint (final_fs py_format w upd fs) = true.
Proof.
  intros Hreach Habs Hout Hdl.
  rewrite (final_fs_in_tempdir _ _ _ _ _ _ Hreach), (rmtree_keeps_outside _ _ _ Hout).
  unfold fs_after_process.
  assert (Hjoin : path_join d hint = hint) by (unfold path_join; now rewrite Habs).
  rewrite Hjoin, Hdl.
  assert (Hthere : file_exists hint (write_file hint data (mkdir d fs)) = true).
  { unfold file_exists. now rewrite read_write_file, String.eqb_refl. }
  destruct (w_exec w _ _) as [e|r]; [exact Hthere|].
  now apply file_exists_write_files.
Qed.

End Files.

(** * Recognition and the formatter, case by case *)

Section Answers.

Variable py_format : pyval -> string.
Variable w : world.

(** X8.  When the attachment is named [converted.wav], the download is at
    the output path already: whatever a subprocess that ends leaves, the
    transcode stage reports success and the engine is called, and when the
    subprocess writes nothing the engine gets the downloaded bytes. *)
Theorem input_named_like_output upd fs f d st data r :
  reached w upd fs (InTempDir f "converted.wav" d) st ->
  w_download w f (path_join d "converted.wav") = inr data ->
  w_exec w (ffmpeg_cmd (path_join d "converted.wav")
              (path_join d "converted.wav"))
    (write_file (path_join d "converted.wav") data (st_fs st)) = inr r ->
  exists audio,
    stage_calls (events py_format w upd fs)
    = [EvDownload f (path_join d "converted.wav");
       EvSpawn (ffmpeg_cmd (path_join d "converted.wav")
                  (path_join d "converted.wav"));
       EvRead (path_join d "converted.wav"); EvRecognize audio] /\
    (snd r = [] -> audio = data).
Proof.
  intros Hreach Hdl Hexec. set (p := path_join d "converted.wav") in *.
  destruct (reached_log _ _ _ _ _ Hreach) as (k & id & Hlog).
  pose proof (download_to_drive_run w f p st) as Hrun. rewrite Hdl in Hrun.
  pose proof (reach_downloaded _ _ _ _ _ _ _ _ Hreach Hrun) as Hd.
  fold p in Hd.
  match type of Hd with reached _ _ _ _ ?s => set (st1 := s) in * end.
  pose proof (convert_to_wav_run w p p st1) as Hconv.
  cbn [st1 st_fs] in Hconv. rewrite Hexec in Hconv.
  assert (Hthere : exists_at p (write_files (snd r)
                                  (write_file p data (st_fs st))) = true).
  { unfold exists_at. rewrite file_exists_write_files; [reflexivity|].
    unfold file_exists. now rewrite read_write_file, String.eqb_refl. }
  rewrite Hthere in Hconv.
  pose proof (reach_transcoded _ _ _ _ _ _ _ _ Hd Hconv) as Ht.
  destruct (run_transcoded py_format _ _ _ _ _ _ Ht) as (audio & Hread & Hfinal).
  exists audio. split.
  - unfold events. rewrite Hfinal.
    match goal with |- context [respond _ _ ?a ?s] =>
      destruct (respond_shape py_format w a s) as [(text & ->) | (e & _ & ->)]
    end; cbn; rewrite Hlog, !stage_calls_app; cbn;
      rewrite ?stage_calls_app, stage_calls_prints; reflexivity.
  - intros Hnone. cbn [st_fs] in Hread. rewrite Hnone in Hread.
    cbn [write_files fold_left] in Hread.
    rewrite read_write_file, String.eqb_refl in Hread. congruence.
Qed.

(** X9.  [recognize_with_shazam] leaves the file system alone.  It raises
    exactly when reading the file raises, with the exception of the read
    and before the engine is called: a missing file gives
    [FileNotFoundError], a directory [IsADirectoryError].  When the file is
    read, the result is the answer of the engine, or the empty dict when
    the engine raises. *)
Theorem recognition_lets_out_read_errors_only o st :
  st_fs (snd (recognize_with_shazam w o st)) = st_fs st /\
  (forall e,
     fst (recognize_with_shazam w o st) = Raise e <->
     fst (read_file o st) = Raise e) /\
  (forall e,
     fst (read_file o st) = Raise e ->
     recognize_with_shazam w o st
     = (Raise e,
        {| st_fs := st_fs st; st_log := st_log st ++ [EvRead o] |})) /\
  (forall audio,
     read_path o (fs_files (st_fs st)) = Some audio ->
     fst (recognize_with_shazam w o st) = Ok (answer_of (w_shazam w audio))) /\
  (file_exists o (st_fs st) = false ->
   fst (recognize_with_shazam w o st)
   = Raise (if dir_exists o (st_fs st) then IsADirectoryError
            else FileNotFoundError)).
Proof.
  split; [apply recognize_with_shazam_fs|].
  unfold file_exists.
  destruct (read_path o (fs_files (st_fs st))) as [audio|] eqn:Hread.
  - rewrite (recognize_with_shazam_run _ _ _ _ Hread).
    assert (Hok : fst (read_file o st) = Ok audio).
    { unfold read_file, bind, emit, get_fs, ret; cbn. now rewrite Hread. }
    rewrite Hok. cbn [fst].
    split; [split; discriminate|].
    split; [discriminate|]. split; [|discriminate].
    now intros a [= <-].
  - assert (Hread_run : read_file o st
              = (Raise (if dir_exists o (st_fs st) then IsADirectoryError
                        else FileNotFoundError),
                 {| st_fs := st_fs st; st_log := st_log st ++ [EvRead o] |})).
    { unfold read_file, bind, emit, get_fs, raise; cbn. rewrite Hread.
      now destruct (dir_exists o (st_fs st)). }
    assert (Hrun : recognize_with_shazam w o st
              = (Raise (if dir_exists o (st_fs st) then IsADirectoryError
                        else FileNotFoundError),
                 {| st_fs := st_fs st; st_log := st_log st ++ [EvRead o] |})).
    { unfold recognize_with_shazam. unfold bind at 1. now rewrite Hread_run. }
    rewrite Hrun, Hread_run. cbn [fst].
    split; [intros e; split; intros [= He]; now rewrite He|].
    split; [intros e [= He]; now rewrite He|].
    split; [discriminate | reflexivity].
Qed.

(** X10.  Whenever the value taken for the track is falsy (the answer is
    not a dict, or its track is absent, null, false, zero, or an empty
    string, list or dict) the one reply is the no-match text. *)
Theorem falsy_track_is_no_match upd fs d st audio r :
  recognized w upd fs d st audio r ->
  truthy (track_of (answer_of r)) = false ->
  replies (events py_format w upd fs) = [no_match] /\
  fst (run_request py_format w upd fs) = sent w no_match.
Proof.
  intros Hrec Hfalsy.
  destruct (recognized_run py_format _ _ _ _ _ _ _ Hrec) as (st' & Hrun & Hquiet).
  unfold events. rewrite Hrun, respond_run, Hfalsy, reply_text_run. cbn.
  now rewrite !replies_app, Hquiet.
Qed.

(** X11.  When the track is truthy and not a dict (a string, a number, a
    non-empty list), [track.get] raises [AttributeError]: no reply is sent
    and the exception leaves the handler. *)
Theorem odd_track_raises upd fs d st audio r :
  recognized w upd fs d st audio r ->
  truthy (track_of (answer_of r)) = true ->
  is_dict (track_of (answer_of r)) = false ->
  fst (run_request py_format w upd fs) = Raise AttributeError /\
  replies (events py_format w upd fs) = [].
Proof.
  intros Hrec Htruthy Hodd.
  destruct (recognized_run py_format _ _ _ _ _ _ _ Hrec) as (st' & Hrun & Hquiet).
  assert (Hfmt : track_reply py_format (track_of (answer_of r))
                 = Raise AttributeError).
  { destruct (track_of (answer_of r)); try reflexivity; discriminate. }
  unfold events. rewrite Hrun, respond_run, Htruthy, Hfmt. cbn.
  now rewrite replies_app, Hquiet.
Qed.

Lemma find_link_linkless sections :
  linkless sections = true -> find_link py_format sections = Ok "".
Proof.
  destruct sections as [ | | | | | secs | ]; try reflexivity.
  cbn [linkless]. intros Hsecs. unfold find_link.
  destruct secs as [|sec secs]; [reflexivity|].
  change (is_list (PList (sec :: secs)) && truthy (PList (sec :: secs)))
    with true. cbn [py_iter obind].
  rewrite <- (app_nil_r (sec :: secs)).
  now rewrite (scan_sections_skip _ _ _ Hsecs).
Qed.

Lemma append_empty s : s ++ "" = s.
Proof. induction s as [|c s IH]; cbn; [reflexivity | now rewrite IH]. Qed.

(** X12.  For a track with at least one field whose sections are not a
    list, or are a list of section records without a qualifying hub, the
    reply is the title line and the artist line and nothing after them. *)
Theorem no_link_no_line upd fs d st audio resp track :
  recognized w upd fs d st audio (inr (PDict resp)) ->
  dict_lookup "track" resp = Some (PDict track) ->
  track <> [] ->
  linkless (dict_get track "sections") = true ->
  replies (events py_format w upd fs)
  = [title_label
     ++ py_format (py_or (dict_get track "title") (PStr placeholder))
     ++ artist_label
     ++ py_format (py_or (dict_get track "subtitle") (PStr placeholder))].
Proof.
  intros Hrec Htrack Hne Hlinkless.
  destruct (recognized_run py_format _ _ _ _ _ _ _ Hrec) as (st' & Hrun & Hquiet).
  assert (Htruthy : truthy (PDict track) = true) by now destruct track.
  unfold events. rewrite Hrun, respond_run. cbn [answer_of track_of].
  unfold dict_get at 1 2. rewrite Htrack, Htruthy, track_reply_dict.
  rewrite (find_link_linkless _ Hlinkless). cbn [obind].
  rewrite reply_text_run. cbn [close fst snd st_log].
  now rewrite !replies_app, Hquiet, append_empty.
Qed.

Lemma scan_providers_sound ps more :
  forallb sound_provider ps = true ->
  exists more', scan_providers py_format ps more = Ok more'.
Proof.
  induction ps as [|p ps IH]; [cbn; eauto|].
  cbn [forallb]. intros [Hp Hps]%andb_true_iff.
  destruct p as [ | | | | | | d0]; try discriminate.
  cbn [scan_providers py_get]. unfold sound_provider, dict_get in Hp.
  destruct (dict_lookup "type" d0) as [ty|]; cbn [obind].
  - destruct (py_eq_str ty "youtube"); [|exact (IH Hps)].
    destruct (dict_lookup "actions" d0) as [[ | | | | | [|[ | | | | | | a] acts] | ]|];
      try discriminate; cbn.
    + destruct (dict_lookup "uri" a); cbn; eauto.
    + eauto.
  - exact (IH Hps).
Qed.

Lemma scan_sections_sound secs :
  forallb sound_section secs = true ->
  exists more, scan_sections py_format secs "" = Ok more.
Proof.
  induction secs as [|sec secs IH]; [cbn; eauto|].
  cbn [forallb]. intros [Hsec Hsecs]%andb_true_iff.
  specialize (IH Hsecs).
  assert (Hstep : forall more',
            exists more,
              (if negb (more' =? "") then Ok more'
               else scan_sections py_format secs more') = Ok more).
  { intros more'. destruct (more' =? "") eqn:E; cbn; [|eauto].
    apply String.eqb_eq in E. now subst. }
  destruct sec as [ | | | | | | s]; try discriminate.
  cbn [scan_sections py_get]. unfold sound_section, dict_get in Hsec.
  destruct (dict_lookup "hub" s) as [hub|]; cbn [obind]; [|cbn; exact IH].
  destruct hub as [ | | | | | | [|h hs]]; try (cbn; exact IH).
  - cbn. destruct b; cbn; exact IH.
  - cbn. destruct (negb (z =? 0)%Z); cbn; exact IH.
  - cbn. destruct f; cbn; exact IH.
  - cbn. destruct (negb (s0 =? "")); cbn; exact IH.
  - cbn. destruct l; cbn; exact IH.
  - change (truthy (PDict (h :: hs)) && is_dict (PDict (h :: hs))) with true.
    cbn iota. cbn [py_get].
    assert (Hscan : exists more',
      obind (py_iter (py_or match dict_lookup "providers" (h :: hs) with
                            | Some x => x | None => PNone end (PList [])))
        (fun providers => scan_providers py_format providers "") = Ok more').
    { unfold py_or.
      destruct (dict_lookup "providers" (h :: hs)) as [found|]; [|cbn; eauto].
      destruct found as [ | | | | | ps | ]; cbn in Hsec;
        try (apply negb_true_iff in Hsec; cbn; rewrite Hsec; cbn; eauto; fail);
        try (cbn; eauto; fail).
      destruct ps as [|p ps]; [cbn; eauto|].
      change (truthy (PList (p :: ps))) with true. cbn [py_iter obind].
      exact (scan_providers_sound _ _ Hsec). }
    destruct (dict_lookup "providers" (h :: hs)) as [found|];
      cbn [obind] in Hscan |- *; destruct Hscan as (more' & ->);
      cbn [obind]; apply Hstep.
Qed.

Lemma find_link_sound sections :
  sound_sections sections = true ->
  exists more, find_link py_format sections = Ok more.
Proof.
  destruct sections as [ | | | | | secs | ]; try (cbn; eauto; fail).
  cbn [sound_sections]. intros Hsecs. unfold find_link.
  destruct secs as [|sec secs]; [cbn; eauto|].
  change (is_list (PList (sec :: secs)) && truthy (PList (sec :: secs)))
    with true. cbn [py_iter obind].
  exact (scan_sections_sound _ Hsecs).
Qed.

(** X13.  When the track is a dict whose sections are not a list, or a
    list of sound sections, the formatter does not raise: the request sends
    exactly one reply and ends as the sending of it ends. *)
Theorem sound_track_gets_a_reply upd fs d st audio r track :
  recognized w upd fs d st audio r ->
  track_of (answer_of r) = PDict track ->
  sound_sections (dict_get track "sections") = true ->
  exists text,
    replies (events py_format w upd fs) = [text] /\
    fst (run_request py_format w upd fs) = sent w text.
Proof.
  intros Hrec Htrack Hsound.
  destruct (recognized_run py_format _ _ _ _ _ _ _ Hrec) as (st' & Hrun & Hquiet).
  destruct (find_link_sound _ Hsound) as (more & Hlink).
  unfold events. rewrite Hrun, respond_run, Htrack.
  destruct (truthy (PDict track)).
  - rewrite track_reply_dict, Hlink. cbn [obind]. rewrite reply_text_run.
    eexists. cbn [close fst snd st_log]. rewrite !replies_app, Hquiet.
    split; reflexivity.
  - rewrite reply_text_run. exists no_match. cbn [close fst snd st_log].
    rewrite !replies_app, Hquiet. split; reflexivity.
Qed.

End Answers.

(** * What the user is told *)

Section Replies.

Variable py_format : pyval -> string.
Variable w : world.

(** The reply of the formatter stage is the no-match text or the text
    built from the track. *)
Lemma respond_reply result st :
  (exists text,
     respond py_format w result st
     = (sent w text,
        {| st_fs := st_fs st; st_log := st_log st ++ [EvReplyText text] |}) /\
     (text = no_match \/
      track_reply py_format (track_of result) = Ok text)) \/
  respond py_format w result st = (fst (respond py_format w result st), st).
Proof.
  rewrite respond_run.
  destruct (truthy (track_of result)).
  - destruct (track_reply py_format (track_of result)) as [reply|e].
    + left. exists reply. split; [apply reply_text_run | now right].
    + now right.
  - left. exists no_match. split; [apply reply_text_run | now left].
Qed.

(** X14.  Every reply is one of the four fixed texts or the text the
    formatter builds from a track; the text of an exception is never sent
    to the user. *)
Theorem replies_are_fixed_or_track_texts upd fs text :
  In text (replies (events py_format w upd fs)) ->
  text = usage_prompt \/ text = download_error \/ text = convert_error \/
  text = no_match \/
  exists track, track_reply py_format track = Ok text.
Proof.
  unfold events.
  destruct (every_request_ends w upd fs)
    as [Hmsg | msg Hmsg Hfirst | msg k m e Hmsg Hfirst Hget
        | f hint st e Hreach Hsend | f hint st e Hreach Hsend Hmk
        | f hint d st e Hreach Hdl | d i o st st' Hreach Hconv
        | d o st Hreach].
  - rewrite (run_no_message _ _ _ _ Hmsg). intros [].
  - rewrite (run_no_attachment _ _ _ _ _ Hmsg Hfirst). cbn. intuition.
  - rewrite (run_get_file_raised _ _ _ _ _ _ _ _ Hmsg Hfirst Hget). intros [].
  - rewrite (run_typing_raised _ _ _ _ _ _ _ _ Hreach Hsend). cbn.
    rewrite replies_app, (reached_quiet _ _ _ _ _ Hreach). intros [].
  - rewrite (run_mkdtemp_raised _ _ _ _ _ _ _ _ Hreach Hsend Hmk). cbn.
    rewrite replies_app, (reached_quiet _ _ _ _ _ Hreach). intros [].
  - rewrite (run_download_raised _ _ _ _ _ _ _ _ _ Hreach Hdl). cbn.
    rewrite !replies_app, (reached_quiet _ _ _ _ _ Hreach). cbn.
    destruct (sent w download_error); cbn; intuition.
  - rewrite (run_convert_failed _ _ _ _ _ _ _ _ _ Hreach Hconv). cbn.
    destruct (convert_log _ _ _ _ _ _ Hconv) as (evs & -> & Hq & _).
    rewrite !replies_app, (reached_quiet _ _ _ _ _ Hreach), Hq. cbn.
    intuition.
  - destruct (run_transcoded py_format _ _ _ _ _ _ Hreach) as (audio & _ & ->).
    match goal with |- context [respond _ _ ?r ?s] =>
      destruct (respond_reply r s) as [(reply & -> & Horigin) | ->]
    end; cbn; rewrite !replies_app, (reached_quiet _ _ _ _ _ Hreach); cbn;
      rewrite ?replies_app, (proj1 (prints_quiet _ _)); cbn.
    + intros [<- | []]. destruct Horigin as [-> | Hfmt]; eauto 6.
    + intros [].
Qed.

End Replies.

(** * The further theorems at concrete requests *)

Lemma demo_reaches_downloaded proc answer :
  reached (studio (inr demo_raw) proc answer) demo_update demo_fs
    (Downloaded demo_tmpdir demo_in demo_out) demo_downloaded.
Proof.
  apply (reach_downloaded _ _ _ demo_handle "voice_AgADxw.ogg" demo_tmpdir
           demo_in_tempdir).
  - apply demo_reaches_tempdir.
  - reflexivity.
Defined.

Lemma audio_reaches_tempdir name dl proc answer :
  (name =? "") = false ->
  reached (studio dl proc answer)
    {| upd_message := Some (audio_message name) |} demo_fs
    (InTempDir demo_handle name demo_tmpdir) audio_in_tempdir.
Proof.
  intros Hname.
  pose proof (reach_resolved (studio dl proc answer)
                {| upd_message := Some (audio_message name) |} demo_fs
                (audio_message name) Audio
                {| file_id := "CQACAgQ"; file_unique_id := "AgADzz";
                   file_name := Some name |}
                demo_handle eq_refl eq_refl eq_refl) as Hres.
  cbn [hint_of str_or file_name] in Hres. rewrite Hname in Hres.
  exact (reach_tempdir _ _ _ _ _ _ demo_tmpdir Hres eq_refl eq_refl).
Defined.


(** X4 at the converter that exits with status 0 and writes nothing. *)
Lemma transcode_failure_aborts_witness :
  let w := studio (inr demo_raw) (inr (0%Z, [])) (inl TypeError) in
  replies (events show_scalar w demo_update demo_fs) = [convert_error] /\
  (exists f, stage_calls (events show_scalar w demo_update demo_fs)
             = [EvDownload f demo_in; EvSpawn (ffmpeg_cmd demo_in demo_out)]) /\
  fst (run_request show_scalar w demo_update demo_fs) = sent w convert_error.
Proof.
  intros w.
  apply (transcode_failure_aborts show_scalar w demo_update demo_fs
           demo_tmpdir demo_in demo_out demo_downloaded).
  - apply demo_reaches_downloaded.
  - reflexivity.
Defined.

(** X6 at the voice request that runs to its end: the file system is the
    one it started with. *)
Lemma no_files_left_behind_witness :
  final_fs show_scalar (lab (inr (PDict []))) demo_update demo_fs = demo_fs.
Proof.
  refine (no_files_left_behind show_scalar (lab (inr (PDict [])))
            demo_update demo_fs demo_handle "voice_AgADxw.ogg"
            demo_tmpdir demo_in_tempdir
            (demo_reaches_tempdir _ _ _) eq_refl _).
  intros cmd fs r [= <-]. reflexivity.
Defined.

(** X7 at an audio file that calls itself [/srv/in.mp3]. *)
Lemma absolute_name_escapes_witness :
  file_exists "/srv/in.mp3"
    (final_fs show_scalar (lab (inr (PDict [])))
       {| upd_message := Some (audio_message "/srv/in.mp3") |} demo_fs)
  = true.
Proof.
  apply (absolute_name_escapes show_scalar (lab (inr (PDict [])))
           {| upd_message := Some (audio_message "/srv/in.mp3") |} demo_fs
           demo_handle "/srv/in.mp3" demo_tmpdir audio_in_tempdir demo_raw).
  - apply audio_reaches_tempdir. reflexivity.
  - reflexivity.
  - reflexivity.
  - reflexivity.
Defined.

(** X8 at an audio file that calls itself [converted.wav] and a converter
    that gives up with status 1: the engine hears the download. *)
Lemma input_named_like_output_witness :
  let w := studio (inr demo_raw) (inr (1%Z, [])) (inr (PDict [])) in
  exists audio,
    stage_calls (events show_scalar w
                   {| upd_message := Some (audio_message "converted.wav") |}
                   demo_fs)
    = [EvDownload demo_handle demo_out;
       EvSpawn (ffmpeg_cmd demo_out demo_out);
       EvRead demo_out; EvRecognize audio] /\
    ((@nil (string * bytes)) = [] -> audio = demo_raw).
Proof.
  intros w.
  apply (input_named_like_output show_scalar w
           {| upd_message := Some (audio_message "converted.wav") |} demo_fs
           demo_handle demo_tmpdir audio_in_tempdir demo_raw (1%Z, [])).
  - apply audio_reaches_tempdir. reflexivity.
  - reflexivity.
  - reflexivity.
Defined.

(** X10 at an engine that answers with a list. *)
Lemma falsy_track_is_no_match_witness :
  replies (events show_scalar (lab (inr (PList [PInt 1]))) demo_update demo_fs)
    = [no_match] /\
  fst (run_request show_scalar (lab (inr (PList [PInt 1]))) demo_update demo_fs)
    = sent (lab (inr (PList [PInt 1]))) no_match.
Proof.
  apply (falsy_track_is_no_match show_scalar (lab (inr (PList [PInt 1])))
           demo_update demo_fs demo_tmpdir demo_transcoded demo_audio
           (inr (PList [PInt 1]))).
  - apply demo_recognized.
  - reflexivity.
Defined.

(** X11 at an engine whose track is a string. *)
Lemma odd_track_raises_witness :
  fst (run_request show_scalar (lab (answer_with (PStr "Song")))
         demo_update demo_fs) = Raise AttributeError /\
  replies (events show_scalar (lab (answer_with (PStr "Song")))
             demo_update demo_fs) = [].
Proof.
  apply (odd_track_raises show_scalar (lab (answer_with (PStr "Song")))
           demo_update demo_fs demo_tmpdir demo_transcoded demo_audio
           (answer_with (PStr "Song"))).
  - apply demo_recognized.
  - reflexivity.
  - reflexivity.
Defined.

(** X12 at the track without a title and without sections. *)
Lemma no_link_no_line_witness :
  replies (events show_scalar (lab (answer_with (PDict untitled_track)))
             demo_update demo_fs)
  = [title_label ++ "---" ++ artist_label ++ "Y"].
Proof.
  apply (no_link_no_line show_scalar
           (lab (answer_with (PDict untitled_track)))
           demo_update demo_fs demo_tmpdir demo_transcoded demo_audio
           [("track", PDict untitled_track)] untitled_track).
  - apply demo_recognized.
  - reflexivity.
  - discriminate.
  - reflexivity.
Defined.

(** X13 at the track with two links. *)
Lemma sound_track_gets_a_reply_witness :
  exists text,
    replies (events show_scalar (lab (answer_with (PDict linked_track)))
               demo_update demo_fs) = [text] /\
    fst (run_request show_scalar (lab (answer_with (PDict linked_track)))
           demo_update demo_fs)
    = sent (lab (answer_with (PDict linked_track))) text.
Proof.
  apply (sound_track_gets_a_reply show_scalar
           (lab (answer_with (PDict linked_track)))
           demo_update demo_fs demo_tmpdir demo_transcoded demo_audio
           (answer_with (PDict linked_track)) linked_track).
  - apply demo_recognized.
  - reflexivity.
  - reflexivity.
Defined.

(** X14 at the request whose download times out. *)
Lemma replies_are_fixed_or_track_texts_witness :
  let w := studio (inl (ExternalError "timed out")) (inl FileNotFoundError)
             (inl TypeError) in
  In download_error (replies (events show_scalar w demo_update demo_fs)) /\
  (download_error = usage_prompt \/ download_error = download_error \/
   download_error = convert_error \/ download_error = no_match \/
   exists track, track_reply show_scalar track = Ok download_error).
Proof.
  intros w.
  assert (H : In download_error
                (replies (events show_scalar w demo_update demo_fs)))
    by (left; reflexivity).
  split; [exact H|].
  exact (replies_are_fixed_or_track_texts show_scalar w demo_update demo_fs
           download_error H).
Defined.
